(** * Chaos Reviewer: the error-extraction and reply-composition pipeline

    A shallow embedding of the three source files of the repository

      - [src/agent/agent.py]             (module [Agent]),
      - [src/Chaos Reviewer/Agent.py]    (module [ChaosReviewer]),
      - [src/agent/webhook.py]           (module [Webhook]),

    followed by the properties of the specification that were checked
    against them.

    Conventions of the model.

    - A Python [str] is a Rocq [string]; one character of the model is one
      character of the Python string.  The character tables of the model
      ([isspace], [\d], [\w], [str.lower]) are those of Python on the ASCII
      range; the literals of the source that contain other symbols (dashes,
      curly quotes, emoji) are kept as their UTF-8 bytes.
    - Values decoded from JSON are the dynamically typed [pyval]; the
      content of a chat message is a list of items.
    - Exceptions are explicit: a computation that can raise returns a
      [result].
    - The collaborators the source reaches over the network (the two text
      generation services, the gist bridge), the JSON decoder and the random
      generator are inputs of the model: an environment record and a tape of
      raw random draws. *)

From Stdlib Require Import String Ascii List Bool Arith ZArith QArith Lia.
From Stdlib Require Import DecimalString.
Import ListNotations.

Close Scope Q_scope.
Open Scope bool_scope.
Open Scope string_scope.
Open Scope list_scope.

(* ------------------------------------------------------------------ *)
(** * Python strings *)
(* ------------------------------------------------------------------ *)

Module Py.

Definition code (c : ascii) : nat := nat_of_ascii c.

Definition in_range (lo hi : nat) (c : ascii) : bool :=
  (lo <=? code c)%nat && (code c <=? hi)%nat.

(** [str.isspace] on one character: TAB, LF, VT, FF, CR, the four
    separators FS GS RS US, and the blank. *)
Definition isspace (c : ascii) : bool :=
  in_range 9 13 c || in_range 28 32 c.

Definition isdigit (c : ascii) : bool := in_range 48 57 c.

Definition isupper (c : ascii) : bool := in_range 65 90 c.

Definition islower (c : ascii) : bool := in_range 97 122 c.

(** The class [\w]: letters, digits and the underscore. *)
Definition isword (c : ascii) : bool :=
  isupper c || islower c || isdigit c || (code c =? 95)%nat.

Definition lower_char (c : ascii) : ascii :=
  if isupper c then ascii_of_nat (code c + 32) else c.

(** [s.lower()] *)
Fixpoint lower (s : string) : string :=
  match s with
  | EmptyString => EmptyString
  | String c s' => String (lower_char c) (lower s')
  end.

(** Truth value of a string: [bool(s)]. *)
Definition truthy (s : string) : bool :=
  match s with EmptyString => false | String _ _ => true end.

Fixpoint lstrip (s : string) : string :=
  match s with
  | String c s' => if isspace c then lstrip s' else s
  | EmptyString => EmptyString
  end.

(** [rstrip] keeps a character when it is not white space or when
    something is kept after it. *)
Fixpoint rstrip (s : string) : string :=
  match s with
  | EmptyString => EmptyString
  | String c s' =>
      match rstrip s' with
      | EmptyString => if isspace c then EmptyString else String c EmptyString
      | t => String c t
      end
  end.

(** [s.strip()] *)
Definition strip (s : string) : string := rstrip (lstrip s).

(** [s.startswith(p)] *)
Fixpoint startswith (s p : string) : bool :=
  match p, s with
  | EmptyString, _ => true
  | String a p', String b s' => Ascii.eqb a b && startswith s' p'
  | String _ _, EmptyString => false
  end.

(** [sub in s] *)
Fixpoint contains (sub s : string) : bool :=
  startswith s sub ||
  match s with
  | EmptyString => false
  | String _ s' => contains sub s'
  end.

Fixpoint rev_string (s acc : string) : string :=
  match s with
  | EmptyString => acc
  | String c s' => rev_string s' (String c acc)
  end.

(** [s.endswith(p)] *)
Definition endswith (s p : string) : bool :=
  startswith (rev_string s "") (rev_string p "").

(** [s.endswith((p1, ..., pn))] *)
Definition endswith_any (s : string) (ps : list string) : bool :=
  existsb (endswith s) ps.

(** [s[:n]] for [n >= 0] *)
Fixpoint take (n : nat) (s : string) : string :=
  match n, s with
  | S n', String c s' => String c (take n' s')
  | _, _ => EmptyString
  end.

(** [s[n:]] for [n >= 0] *)
Fixpoint drop (n : nat) (s : string) : string :=
  match n, s with
  | S n', String _ s' => drop n' s'
  | _, _ => s
  end.

(** [l[-n:]] for [n > 0] *)
Definition last_n {A} (n : nat) (l : list A) : list A :=
  skipn (List.length l - n) l.

(** The line boundaries of [str.splitlines] on the ASCII range:
    LF, VT, FF, CR, FS, GS, RS; CR LF counts as one boundary. *)
Definition is_linebreak (c : ascii) : bool :=
  in_range 10 13 c || in_range 28 30 c.

(** [splitlines_from cur s]: [cur] is the current line, reversed. *)
Fixpoint splitlines_from (cur : string) (s : string) : list string :=
  match s with
  | EmptyString =>
      match cur with
      | EmptyString => []
      | _ => [rev_string cur ""]
      end
  | String c s' =>
      if is_linebreak c then
        rev_string cur "" ::
        match s' with
        | String d s'' =>
            if (code c =? 13)%nat && (code d =? 10)%nat
            then splitlines_from "" s''
            else splitlines_from "" s'
        | EmptyString => []
        end
      else splitlines_from (String c cur) s'
  end.

(** [s.splitlines()] *)
Definition splitlines (s : string) : list string := splitlines_from "" s.

(** [s.isdigit()] *)
Fixpoint all_digits (s : string) : bool :=
  match s with
  | EmptyString => true
  | String c s' => isdigit c && all_digits s'
  end.

Definition str_isdigit (s : string) : bool := truthy s && all_digits s.

(** [int(s)] for a string of decimal digits. *)
Fixpoint int_digits (acc : Z) (s : string) : Z :=
  match s with
  | EmptyString => acc
  | String c s' => int_digits (10 * acc + Z.of_nat (code c - 48)) s'
  end.

(** [str(n)] for an integer. *)
Definition str_of_int (n : Z) : string :=
  NilZero.string_of_int (Z.to_int n).

(** The line feed and the double quote, as strings. *)
Definition LF : string := String (ascii_of_nat 10) "".
Definition DQ : string := String (ascii_of_nat 34) "".

End Py.

(* ------------------------------------------------------------------ *)
(** * The regular expressions of module [re] *)
(* ------------------------------------------------------------------ *)

(** A backtracking matcher with the priorities of Python's [re]: a greedy
    repetition tries the longest run first, a lazy one the shortest, an
    alternation its left branch first, and the first way to match that
    succeeds is the match.  Every repetition of the program's patterns is
    over a single character class, so [Rep] repeats a class. *)

Module Re.

Inductive regex : Type :=
| Eps                                   (* the empty pattern            *)
| Chr (c : ascii)                       (* one literal character        *)
| Cls (p : ascii -> bool)               (* one character of a class     *)
| Rep (p : ascii -> bool) (min : nat) (greedy : bool)
                                        (* p* p+ (greedy) and p*? (lazy) *)
| Cat (r1 r2 : regex)
| Alt (r1 r2 : regex)                   (* r1|r2                        *)
| Grp (i : nat) (r : regex)             (* capturing group number i     *)
| Bol                                   (* ^                            *)
| Eol                                   (* $                            *)
| EndZ                                  (* \Z                           *)
| WordB.                                (* \b                           *)

Record flags : Type := { MULTILINE : bool; IGNORECASE : bool }.

(** A compiled pattern: [groupindex] maps the names of the named groups
    [(?P<name>...)] to their numbers, as [Pattern.groupindex] does. *)
Record pattern : Type :=
  { rx : regex; fl : flags; groupindex : list (string * nat) }.

(** Derived forms. *)
Definition Opt (r : regex) : regex := Alt r Eps.            (* r?  *)
Definition Star (p : ascii -> bool) : regex := Rep p 0 true.  (* p*  *)
Definition Plus (p : ascii -> bool) : regex := Rep p 1 true.  (* p+  *)
Definition LazyStar (p : ascii -> bool) : regex := Rep p 0 false. (* p*? *)

Fixpoint Str (s : string) : regex :=
  match s with
  | EmptyString => Eps
  | String c EmptyString => Chr c
  | String c s' => Cat (Chr c) (Str s')
  end.

Fixpoint Seq (rs : list regex) : regex :=
  match rs with
  | [] => Eps
  | [r] => r
  | r :: rs' => Cat r (Seq rs')
  end.

Fixpoint Alts (rs : list regex) : regex :=
  match rs with
  | [] => Eps
  | [r] => r
  | r :: rs' => Alt r (Alts rs')
  end.

(** Character classes of the patterns. *)
Definition is_char (c d : ascii) : bool := Ascii.eqb c d.
Definition newline : ascii := ascii_of_nat 10.
Definition dot (c : ascii) : bool := negb (is_char newline c).      (* .      *)
Definition any (c : ascii) : bool := true.                          (* [\s\S] *)
Definition none_of (cs : list ascii) (c : ascii) : bool :=          (* [^...] *)
  negb (existsb (fun d => is_char d c) cs).
Definition one_of (cs : list ascii) (c : ascii) : bool :=           (* [...]  *)
  existsb (fun d => is_char d c) cs.

(** The matcher's position: the character before it ([None] at the start
    of the text), the text after it, and the groups closed so far. *)
Record mstate : Type :=
  { prev : option ascii; rest : string; caps : list (nat * string) }.

Definition at_bol (f : flags) (st : mstate) : bool :=
  match prev st with
  | None => true
  | Some c => MULTILINE f && is_char newline c
  end.

Definition at_eol (f : flags) (st : mstate) : bool :=
  match rest st with
  | EmptyString => true
  | String c EmptyString => is_char newline c
  | String c _ => MULTILINE f && is_char newline c
  end.

Definition is_word_opt (o : option ascii) : bool :=
  match o with Some c => Py.isword c | None => false end.

Definition next (st : mstate) : option ascii :=
  match rest st with String c _ => Some c | EmptyString => None end.

Definition at_wordb (st : mstate) : bool :=
  xorb (is_word_opt (prev st)) (is_word_opt (next st)).

Definition chr_eq (f : flags) (c d : ascii) : bool :=
  if IGNORECASE f
  then is_char (Py.lower_char c) (Py.lower_char d)
  else is_char c d.

Section Matcher.

Variable f : flags.

(** Greedy run of a class, at least [min] characters: the longest run
    first, then shorter ones. *)
Fixpoint rep_greedy (p : ascii -> bool) (min : nat)
         (pv : option ascii) (s : string)
         (k : option ascii -> string -> option mstate) : option mstate :=
  let stop := match min with 0 => k pv s | S _ => None end in
  match s with
  | String c s' =>
      if p c then
        match rep_greedy p (Nat.pred min) (Some c) s' k with
        | Some r => Some r
        | None => stop
        end
      else stop
  | EmptyString => stop
  end.

(** Lazy run of a class: the shortest run first, then longer ones. *)
Fixpoint rep_lazy (p : ascii -> bool) (min : nat)
         (pv : option ascii) (s : string)
         (k : option ascii -> string -> option mstate) : option mstate :=
  match (match min with 0 => k pv s | S _ => None end) with
  | Some r => Some r
  | None =>
      match s with
      | String c s' =>
          if p c then rep_lazy p (Nat.pred min) (Some c) s' k else None
      | EmptyString => None
      end
  end.

Definition consumed (st st' : mstate) : string :=
  Py.take (String.length (rest st) - String.length (rest st')) (rest st).

Definition step (p : ascii -> bool) (st : mstate)
           (k : mstate -> option mstate) : option mstate :=
  match rest st with
  | String c s' =>
      if p c
      then k {| prev := Some c; rest := s'; caps := caps st |}
      else None
  | EmptyString => None
  end.

Fixpoint run (r : regex) (st : mstate)
         (k : mstate -> option mstate) : option mstate :=
  match r with
  | Eps => k st
  | Chr c => step (chr_eq f c) st k
  | Cls p => step p st k
  | Rep p min greedy =>
      (if greedy then rep_greedy else rep_lazy) p min (prev st) (rest st)
        (fun pv s => k {| prev := pv; rest := s; caps := caps st |})
  | Cat r1 r2 => run r1 st (fun st' => run r2 st' k)
  | Alt r1 r2 =>
      match run r1 st k with
      | Some res => Some res
      | None => run r2 st k
      end
  | Grp i r1 =>
      run r1 st
        (fun st' =>
           k {| prev := prev st'; rest := rest st';
                caps := (i, consumed st st') :: caps st' |})
  | Bol => if at_bol f st then k st else None
  | Eol => if at_eol f st then k st else None
  | EndZ => match rest st with EmptyString => k st | _ => None end
  | WordB => if at_wordb st then k st else None
  end.

End Matcher.

(** A match object: [m.group(0)] and the captured groups by number. *)
Record rmatch : Type := { whole : string; groups : list (nat * string) }.

(** The match of [p] that starts at the current position, if any. *)
Definition match_at (p : pattern) (pv : option ascii) (s : string)
  : option rmatch :=
  let st := {| prev := pv; rest := s; caps := [] |} in
  match run (fl p) (rx p) st (fun st' => Some st') with
  | Some st' => Some {| whole := consumed st st'; groups := caps st' |}
  | None => None
  end.

(** [p.finditer(s)]: the matches from left to right, none overlapping
    another.  [skip] counts the characters that the previous match still
    covers.  (Every pattern of the program consumes at least one
    character, so an empty match never arises.) *)
Fixpoint scan (p : pattern) (pv : option ascii) (s : string) (skip : nat)
  : list rmatch :=
  match skip with
  | S k =>
      match s with
      | String c s' => scan p (Some c) s' k
      | EmptyString => []
      end
  | 0 =>
      match match_at p pv s with
      | Some m =>
          m :: match s with
               | String c s' => scan p (Some c) s' (String.length (whole m) - 1)
               | EmptyString => []
               end
      | None =>
          match s with
          | String c s' => scan p (Some c) s' 0
          | EmptyString => []
          end
      end
  end.

Definition finditer (p : pattern) (s : string) : list rmatch :=
  scan p None s 0.

(** [p.search(s)] *)
Definition search (p : pattern) (s : string) : option rmatch :=
  hd_error (finditer p s).

(** [re.sub(p, repl, s)] for a replacement without group references. *)
Fixpoint sub_scan (p : pattern) (repl : string)
         (pv : option ascii) (s : string) (skip : nat) : string :=
  match skip with
  | S k =>
      match s with
      | String c s' => sub_scan p repl (Some c) s' k
      | EmptyString => EmptyString
      end
  | 0 =>
      match match_at p pv s with
      | Some m =>
          repl ++
          match s with
          | String c s' =>
              match whole m with
              | EmptyString => String c (sub_scan p repl (Some c) s' 0)
              | String _ w => sub_scan p repl (Some c) s' (String.length w)
              end
          | EmptyString => EmptyString
          end
      | None =>
          match s with
          | String c s' => String c (sub_scan p repl (Some c) s' 0)
          | EmptyString => EmptyString
          end
      end
  end.

Definition sub (p : pattern) (repl s : string) : string :=
  sub_scan p repl None s 0.

Fixpoint lookup {A} (i : nat) (l : list (nat * A)) : option A :=
  match l with
  | [] => None
  | (j, a) :: l' => if (i =? j)%nat then Some a else lookup i l'
  end.

(** [m.groupdict()]: one entry per named group of the pattern, [None]
    for a group that took no part in the match. *)
Definition groupdict (p : pattern) (m : rmatch)
  : list (string * option string) :=
  map (fun '(name, i) => (name, lookup i (groups m))) (groupindex p).

(** [g.get(key)] on such a dictionary: [None] for a missing key too. *)
Fixpoint dict_get (key : string) (g : list (string * option string))
  : option string :=
  match g with
  | [] => None
  | (name, v) :: g' => if String.eqb key name then v else dict_get key g'
  end.

Definition no_flags : flags := {| MULTILINE := false; IGNORECASE := false |}.
Definition multiline : flags := {| MULTILINE := true; IGNORECASE := false |}.
Definition ignorecase : flags := {| MULTILINE := false; IGNORECASE := true |}.

(** [r'\s+'] *)
Definition spaces : pattern :=
  {| rx := Plus Py.isspace; fl := no_flags; groupindex := [] |}.

End Re.

(* ------------------------------------------------------------------ *)
(** * Dynamic values and exceptions *)
(* ------------------------------------------------------------------ *)

(** The values [json.loads] produces.  A float is kept as the rational it
    denotes. *)
#[warnings="-register-all"]
Inductive pyval : Type :=
| PNone
| PBool (b : bool)
| PInt (n : Z)
| PFloat (q : Q)
| PStr (s : string)
| PList (l : list pyval)
| PDict (d : list (string * pyval)).

Inductive exn : Type :=
| TypeError | AttributeError | ValueError | IndexError.

Inductive result (A : Type) : Type :=
| Ok (a : A)
| Raise (e : exn).

Arguments Ok {A} a.
Arguments Raise {A} e.

Module Dyn.

(** [bool(v)] *)
Definition truthy (v : pyval) : bool :=
  match v with
  | PNone => false
  | PBool b => b
  | PInt n => negb (n =? 0)%Z
  | PFloat q => negb (Qeq_bool q 0)
  | PStr s => Py.truthy s
  | PList l => match l with [] => false | _ => true end
  | PDict d => match d with [] => false | _ => true end
  end.

(** [v or d] *)
Definition or_ (v d : pyval) : pyval := if truthy v then v else d.

Fixpoint assoc (k : string) (d : list (string * pyval)) : option pyval :=
  match d with
  | [] => None
  | (k', v) :: d' => if String.eqb k k' then Some v else assoc k d'
  end.

(** [v.get(k)]: only a dictionary has the method. *)
Definition get (v : pyval) (k : string) : result pyval :=
  match v with
  | PDict d => Ok (match assoc k d with Some x => x | None => PNone end)
  | _ => Raise AttributeError
  end.

(** [k in v] for a dictionary [v] *)
Definition has_key (k : string) (d : list (string * pyval)) : bool :=
  match assoc k d with Some _ => true | None => false end.

(** [v.strip()]: only a string has the method. *)
Definition strip (v : pyval) : result string :=
  match v with
  | PStr s => Ok (Py.strip s)
  | _ => Raise AttributeError
  end.

(** [o or d] for an optional string [o] *)
Definition or_str (o : option string) (d : string) : string :=
  match o with
  | Some s => if Py.truthy s then s else d
  | None => d
  end.

Definition truthy_opt (o : option string) : bool :=
  match o with Some s => Py.truthy s | None => false end.

End Dyn.

(* ------------------------------------------------------------------ *)
(** * Findings and the body shared by the two extractors *)
(* ------------------------------------------------------------------ *)

(** A finding is the dictionary [{"file": .., "line": .., "msg": ..}]. *)
Record finding : Type := { file : string; line : Z; msg : string }.

Module Findings.

(** The body of the loop over the matches of one pattern: the fields of
    the finding a match gives. *)
Definition fields (pat : Re.pattern) (m : Re.rmatch) : finding :=
  let g := Re.groupdict pat m in
  let file_ := Py.strip (Dyn.or_str (Re.dict_get "file" g) "") in
  let line_s := Re.dict_get "line" g in
  let line_ :=
    match line_s with
    | Some s => if Py.truthy s && Py.str_isdigit s then Py.int_digits 0 s else 0%Z
    | None => 0%Z
    end in
  let msg_ :=
    Re.sub Re.spaces " "
      (Py.strip (Dyn.or_str (Re.dict_get "msg" g) (Re.whole m))) in
  {| file := file_; line := line_; msg := msg_ |}.

(** [if file_ and line_] *)
Definition well_formed (f : finding) : bool :=
  Py.truthy (file f) && negb (line f =? 0)%Z.

(** The inner loop, [for m in pat.finditer(..)], with its [break]. *)
Fixpoint scan_matches (pat : Re.pattern) (ms : list Re.rmatch)
         (findings : list finding) : list finding :=
  match ms with
  | [] => findings
  | m :: ms' =>
      let f := fields pat m in
      let findings' := if well_formed f then findings ++ [f] else findings in
      if (5 <=? List.length findings')%nat then findings'
      else scan_matches pat ms' findings'
  end.

(** The outer loop, [for pat in FILE_LINE_PATTERNS], with its [break]. *)
Fixpoint scan_patterns (pats : list Re.pattern) (log_text : string)
         (findings : list finding) : list finding :=
  match pats with
  | [] => findings
  | pat :: pats' =>
      let findings' := scan_matches pat (Re.finditer pat log_text) findings in
      if (5 <=? List.length findings')%nat then findings'
      else scan_patterns pats' log_text findings'
  end.

Definition is_keyword_line (ln : string) : bool :=
  let low := Py.lower ln in
  Py.contains "error" low || Py.contains "assertionerror" low
  || Py.contains "failed" low.

(** The keyword loop over the last lines, with its [break]. *)
Fixpoint keyword_scan (lines : list string) (findings : list finding)
  : list finding :=
  match lines with
  | [] => findings
  | ln :: lines' =>
      if is_keyword_line ln then
        let findings' :=
          findings ++ [{| file := "(unknown)"; line := 1; msg := Py.strip ln |}] in
        if (3 <=? List.length findings')%nat then findings'
        else keyword_scan lines' findings'
      else keyword_scan lines' findings
  end.

(** The function body once the text is known to be a string. *)
Definition extract (pats : list Re.pattern) (log_text : string)
  : list finding :=
  let findings := scan_patterns pats log_text [] in
  match findings with
  | [] => keyword_scan (Py.last_n 300 (Py.splitlines log_text)) []
  | _ => findings
  end.

End Findings.

(* ------------------------------------------------------------------ *)
(** * The patterns *)
(* ------------------------------------------------------------------ *)

Module Patterns.
Import Re.

Definition c (s : string) : ascii :=
  match s with String a _ => a | EmptyString => zero end.

Definition quote : ascii := ascii_of_nat 34.

(** [[^:\n]+] *)
Definition not_colon_nl : ascii -> bool := none_of [c ":"; newline].

(** [^(?P<file>[^:\n]+):(?P<line>\d+):\d*:?\s*error:\s*(?P<msg>.+)$]
    of agent.py and webhook.py *)
Definition gcc_agent : pattern :=
  {| rx := Seq [Bol; Grp 1 (Plus not_colon_nl); Chr (c ":");
                Grp 2 (Plus Py.isdigit); Chr (c ":"); Star Py.isdigit;
                Opt (Chr (c ":")); Star Py.isspace; Str "error:";
                Star Py.isspace; Grp 3 (Plus dot); Eol];
     fl := multiline;
     groupindex := [("file", 1); ("line", 2); ("msg", 3)] |}.

(** [^(?P<file>[^:\n]+):(?P<line>\d+)(?::\d+)?:\s*error:\s*(?P<msg>.+)$]
    of Agent.py *)
Definition gcc_chaos : pattern :=
  {| rx := Seq [Bol; Grp 1 (Plus not_colon_nl); Chr (c ":");
                Grp 2 (Plus Py.isdigit);
                Opt (Cat (Chr (c ":")) (Plus Py.isdigit));
                Chr (c ":"); Star Py.isspace; Str "error:";
                Star Py.isspace; Grp 3 (Plus dot); Eol];
     fl := multiline;
     groupindex := [("file", 1); ("line", 2); ("msg", 3)] |}.

(** The end of a traceback message: [(?:\n\s*\w.*:|\Z)] *)
Definition tb_end : regex :=
  Alt (Seq [Chr newline; Star Py.isspace; Cls Py.isword; Star dot; Chr (c ":")])
      EndZ.

(** [File Q([^Q]+)Q, line (\d+),.*\n(?P<msg>[\s\S]*?)(?:\n\s*\w.*:|\Z)]
    of agent.py and webhook.py, where Q stands for the double quote: the
    first two groups have no name. *)
Definition traceback_agent : pattern :=
  {| rx := Seq [Str "File "; Chr (quote);
                Grp 1 (Plus (none_of [quote]));
                Chr (quote); Str ", line ";
                Grp 2 (Plus Py.isdigit); Chr (c ","); Star dot; Chr newline;
                Grp 3 (LazyStar any); tb_end];
     fl := multiline;
     groupindex := [("msg", 3)] |}.

(** [File Q(?P<file>[^Q]+)Q, line (?P<line>\d+).*\n(?P<msg>[\s\S]*?)(?:\n\s*\w.*:|\Z)]
    of Agent.py, where Q stands for the double quote *)
Definition traceback_chaos : pattern :=
  {| rx := Seq [Str "File "; Chr (quote);
                Grp 1 (Plus (none_of [quote]));
                Chr (quote); Str ", line ";
                Grp 2 (Plus Py.isdigit); Star dot; Chr newline;
                Grp 3 (LazyStar any); tb_end];
     fl := multiline;
     groupindex := [("file", 1); ("line", 2); ("msg", 3)] |}.

(** [(?P<file>[^:\n]+)\((?P<line>\d+),\d+\):\s*error\s+TS\d+:\s*(?P<msg>.+)$] *)
Definition tsc : pattern :=
  {| rx := Seq [Grp 1 (Plus not_colon_nl); Chr (c "(");
                Grp 2 (Plus Py.isdigit); Chr (c ","); Plus Py.isdigit;
                Str "):"; Star Py.isspace; Str "error"; Plus Py.isspace;
                Str "TS"; Plus Py.isdigit; Chr (c ":"); Star Py.isspace;
                Grp 3 (Plus dot); Eol];
     fl := multiline;
     groupindex := [("file", 1); ("line", 2); ("msg", 3)] |}.

End Patterns.


(* ------------------------------------------------------------------ *)
(** * The environment and the state of a run *)
(* ------------------------------------------------------------------ *)

(** What the program reads from outside: the configuration, the two text
    generation services seen as functions of the request (system prompt,
    user prompt, token budget, temperature), the JSON decoder ([None] when
    [json.loads] raises) and [str()] of a decoded value that is not a
    string. *)
Record Env : Type :=
  { ASI1_API_KEY : string;
    LLM_OK : bool;
    BRAINROT : bool;
    _asi_chat_once : string -> string -> nat -> Q -> option string;
    _free_llm_chat_once : string -> string -> nat -> Q -> option string;
    json_loads : string -> option pyval;
    py_repr : pyval -> string }.

(** The items of a chat message and what the agent sends. *)
Inductive content_item : Type :=
| TextContent (text : string)
| StartSessionContent
| EndSessionContent
| OtherContent.

Inductive outmsg : Type :=
| ChatMessage (content : list content_item)
| ChatAcknowledgement.

(** The state a run changes: the tape of the random generator, the
    messages sent so far, each with its addressee, and the two module
    globals. *)
Record world : Type :=
  { tape : list N;
    outbox : list (string * outmsg);
    _GREETED_MEMORY : list string;
    _last_seen_ts : Z }.

(** Computations that read and change the state and may raise; what was
    sent before an exception stays sent. *)
Definition M (A : Type) : Type := world -> result A * world.

Definition ret {A} (a : A) : M A := fun w => (Ok a, w).

Definition raise {A} (e : exn) : M A := fun w => (Raise e, w).

Definition bind {A B} (m : M A) (k : A -> M B) : M B :=
  fun w =>
    match m w with
    | (Ok a, w') => k a w'
    | (Raise e, w') => (Raise e, w')
    end.

Notation "x <- m ;; k" := (bind m (fun x => k))
  (at level 61, m at next level, right associativity).
Notation "m ;;; k" := (bind m (fun _ => k))
  (at level 61, right associativity).

Definition lift {A} (r : result A) : M A := fun w => (r, w).

Module Random.

(** One raw draw; an exhausted tape keeps giving 0. *)
Definition draw : M N :=
  fun w =>
    match tape w with
    | [] => (Ok 0%N, w)
    | x :: t =>
        (Ok x, {| tape := t; outbox := outbox w;
                  _GREETED_MEMORY := _GREETED_MEMORY w;
                  _last_seen_ts := _last_seen_ts w |})
    end.

(** [random.random()]: a multiple of 2^-53 in [0, 1). *)
Definition random : M Q :=
  x <- draw ;;
  ret (Qmake (Z.of_N (x mod 2 ^ 53)%N) (2 ^ 53)%positive).

(** [random.choice(l)] *)
Definition choice {A} (l : list A) : M A :=
  match l with
  | [] => raise IndexError
  | d :: _ =>
      x <- draw ;;
      ret (nth (N.to_nat x mod List.length l) l d)
  end.

End Random.

Definition Qltb (a b : Q) : bool := negb (Qle_bool b a).

(** [ctx.send(sender, m)] *)
Definition send (sender : string) (m : outmsg) : M unit :=
  fun w =>
    (Ok tt, {| tape := tape w; outbox := outbox w ++ [(sender, m)];
               _GREETED_MEMORY := _GREETED_MEMORY w;
               _last_seen_ts := _last_seen_ts w |}).

(** [_collect_text(msg)] for a message whose content is a list. *)
Fixpoint _collect_text (content : list content_item) : string :=
  match content with
  | [] => ""
  | TextContent t :: rest => (t ++ _collect_text rest)%string
  | _ :: rest => _collect_text rest
  end.

(** The quip tables are dictionaries from a key to a list of lines. *)
Module Table.

Definition t : Type := list (string * list string).

Fixpoint find (k : string) (d : t) : option (list string) :=
  match d with
  | [] => None
  | (k', v) :: d' => if String.eqb k k' then Some v else find k d'
  end.

(** [d[k]], for a key of the table *)
Definition item (d : t) (k : string) : list string :=
  match find k d with Some v => v | None => [] end.

(** [d.get(k, default)] *)
Definition get (d : t) (k : string) (default : list string) : list string :=
  match find k d with Some v => v | None => default end.

End Table.

(** [(lang or "").lower()] *)
Definition lang_key (lang : pyval) : result string :=
  match Dyn.or_ lang (PStr "") with
  | PStr s => Ok (Py.lower s)
  | _ => Raise AttributeError
  end.

(** [f"{file}:{line}" if file and line else ""] *)
Definition loc_of (f0 : finding) : string :=
  if Py.truthy (file f0) && negb (line f0 =? 0)%Z
  then (file f0 ++ ":" ++ Py.str_of_int (line f0))%string
  else "".

(** ["*" * k] *)
Fixpoint stars (k : nat) : string :=
  match k with
  | 0 => EmptyString
  | S k' => String "*" (stars k')
  end.

(** [s[-n:]]: the last [n] characters for a positive [n], all of [s] for
    0, and [s] without its first [-n] characters for a negative [n]. *)
Definition tail_slice (s : string) (n : Z) : string :=
  if (0 <? n)%Z then Py.drop (String.length s - Z.to_nat n) s
  else Py.drop (Z.to_nat (- n)) s.

(** [_mask_tail(s, n)], the same in the two agent files. *)
Definition _mask_tail (s : string) (n : Z) : string :=
  if Py.truthy s
  then (stars (Z.to_nat (Z.max 0 (Z.of_nat (String.length s) - n)))
        ++ tail_slice s n)%string
  else EmptyString.

(** [c in chars] *)
Fixpoint in_chars (c : ascii) (chars : string) : bool :=
  match chars with
  | EmptyString => false
  | String d chars' => Ascii.eqb c d || in_chars c chars'
  end.

(** [s.rstrip(chars)]: [chars] is a set of characters, not a suffix; a
    character is kept when it is not in the set or when something is kept
    after it. *)
Fixpoint rstrip_chars (chars : string) (s : string) : string :=
  match s with
  | EmptyString => EmptyString
  | String c s' =>
      match rstrip_chars chars s' with
      | EmptyString => if in_chars c chars then EmptyString
                       else String c EmptyString
      | t => String c t
      end
  end.

(** [list(dict.fromkeys(l))]: the first occurrence of each key, in order. *)
Fixpoint fromkeys (l : list string) (seen : list string) : list string :=
  match l with
  | [] => []
  | x :: l' =>
      if existsb (String.eqb x) seen then fromkeys l' seen
      else x :: fromkeys l' (x :: seen)
  end.

(** [ASI1_BASE_URL], from the value of the environment variable. *)
Definition ASI1_BASE_URL (env : option string) : string :=
  rstrip_chars "/" (Py.strip (Dyn.or_str env "https://api.asi1.ai/v1")).

(** [_ASI_BASES], the same in the two agent files. *)
Definition _ASI_BASES (base : string) : list string :=
  fromkeys [base; rstrip_chars "/v1" base;
            "https://api.asi1.ai/v1"; "https://api.asi1.ai"] [].

(** [_guess_lang_from_findings], the same in the two agent files. *)
Fixpoint _guess_lang_from_findings (findings : list finding) : option string :=
  match findings with
  | [] => None
  | f :: rest =>
      let fname := Py.lower (file f) in
      if Py.endswith_any fname [".cpp"; ".cc"; ".cxx"; ".hpp"; ".h"; ".c"]
      then Some "cpp"
      else if Py.endswith_any fname [".py"] then Some "python"
      else if Py.endswith_any fname [".ts"; ".tsx"; ".js"; ".jsx"]
      then Some "typescript"
      else _guess_lang_from_findings rest
  end.

Definition of_option (o : option string) : pyval :=
  match o with Some s => PStr s | None => PNone end.

(** The intent patterns, the same in the two agent files. *)
Module Intent.
Import Re Patterns.

(** [\b(hi|hello|hey|yo|sup|hola|namaste|what\'?s up|gm|good (morning|afternoon|evening))\b],
    ignoring case *)
Definition _GREET_PAT : pattern :=
  {| rx := Seq [WordB;
                Grp 1 (Alts [Str "hi"; Str "hello"; Str "hey"; Str "yo";
                             Str "sup"; Str "hola"; Str "namaste";
                             Seq [Str "what"; Opt (Chr (c "'")); Str "s up"];
                             Str "gm";
                             Seq [Str "good ";
                                  Grp 2 (Alts [Str "morning"; Str "afternoon";
                                               Str "evening"])]]);
                WordB];
     fl := ignorecase; groupindex := [] |}.

(** [\b(thanks|thank you|ty|appreciate|you(\s*are|\'re)? (good|great|amazing|awesome|goat|goated))\b],
    ignoring case *)
Definition _PRAISE_PAT : pattern :=
  {| rx := Seq [WordB;
                Grp 1 (Alts [Str "thanks"; Str "thank you"; Str "ty";
                             Str "appreciate";
                             Seq [Str "you";
                                  Opt (Grp 2 (Alt (Seq [Star Py.isspace; Str "are"])
                                                  (Str "'re")));
                                  Chr (c " ");
                                  Grp 3 (Alts [Str "good"; Str "great";
                                               Str "amazing"; Str "awesome";
                                               Str "goat"; Str "goated"])]]);
                WordB];
     fl := ignorecase; groupindex := [] |}.

(** The success pattern of Agent.py, ignoring case: [^\s*] and then one
    group with the six alternatives [return\s+[01]\s*;?\s*$],
    [gg\s*king$], [build\s+passed$], [ok\s*$], [fixed\s*$] and
    [works\s*!*]. *)
Definition _SUCCESS_PAT : pattern :=
  {| rx := Seq [Bol; Star Py.isspace;
                Grp 1 (Alts [Seq [Str "return"; Plus Py.isspace;
                                  Cls (one_of [c "0"; c "1"]); Star Py.isspace;
                                  Opt (Chr (c ";")); Star Py.isspace; Eol];
                             Seq [Str "gg"; Star Py.isspace; Str "king"; Eol];
                             Seq [Str "build"; Plus Py.isspace; Str "passed"; Eol];
                             Seq [Str "ok"; Star Py.isspace; Eol];
                             Seq [Str "fixed"; Star Py.isspace; Eol];
                             Seq [Str "works"; Star Py.isspace;
                                  Star (is_char (c "!"))]])];
     fl := ignorecase; groupindex := [] |}.

Definition found (p : pattern) (s : string) : bool :=
  match search p s with Some _ => true | None => false end.

End Intent.

(* ------------------------------------------------------------------ *)
(** * src/agent/agent.py *)
(* ------------------------------------------------------------------ *)

Module Agent.

Definition FILE_LINE_PATTERNS : list Re.pattern :=
  [Patterns.gcc_agent; Patterns.traceback_agent; Patterns.tsc].

(** [_extract_findings]: [pat.finditer(log_text)] raises [TypeError] on
    anything but a string. *)
Definition _extract_findings (log_text : pyval) (lang_hint : pyval)
  : result (list finding) :=
  match log_text with
  | PStr s => Ok (Findings.extract FILE_LINE_PATTERNS s)
  | _ => Raise TypeError
  end.

Definition QUIPS_BRAINROT : Table.t :=
  [("cpp",
    ["Ohio code moment: missing return cooked the build.";
     "Ballerina Cappuccina pirouetted away with your semicolons.";
     "6-7… and the function dipped before returning. Skibidi no return.";
     "Control path NPC’d out. Add a return, blud.";
     "Cooked path. Low taper fade your logic and return something, fr."]);
   ("python",
    ["Traceback doing doom scrolling. Add the check, keep it sigma.";
     "Bombombini Gusini says add that return, fr.";
     "Tralalero Tralala stomping the bug with Nike on.Cringe None bug. Did you pray today? Add a guard.";
     "Sussy exception arc — tighten that branch, biggest bird style."]);
   ("typescript",
    ["Types won’t glaze themselves — narrow it, gigachad dev.";
     "TS said ‘string’, you gave ‘number’. Ohio assign, fr.";
     "Rizz up the types: refine that union, shmlawg.";
     "Ballerina Cappuccina pirouetted away with your semicolons.";
     "Bombombini Gusini says add that return, fr.";
     "Tralalero Tralala stomping the bug with Nike on.";
     "Chimpanzini Bananini approved the patch diff."]);
   ("default",
    ["Cooked build. Not the mosquito again.";
     "Goofy ahh pipeline crashed out — apply the fix and mew on.";
     "Put the fries in the bag… and the return in the function.";
     "Goated with the sauce once tests pass, blud.";
     "Skibidi";
     "Sigma";
     "Chad";
     "Gigachad";
     "Fine Shyt – work hard"]);
   ("italian",
    ["Ballerina Cappuccina pirouetted away with your semicolons.";
     "Bombombini Gusini says add that return, fr.";
     "Tralalero Tralala stomping the bug with Nike on.";
     "Chimpanzini Bananini approved the patch diff."]);
   ("basic",
    ["Negative Aura"])].

Definition _brainrot_quip_raw (lang : pyval) (basic : bool) : M string :=
  if basic then Random.choice (Table.item QUIPS_BRAINROT "basic")
  else
    key <- lift (lang_key lang) ;;
    let pool :=
      Table.get QUIPS_BRAINROT key (Table.item QUIPS_BRAINROT "default") in
    r <- Random.random ;;
    let picks :=
      pool ++ (if Qltb r (Qmake 1 4) then Table.item QUIPS_BRAINROT "italian"
               else []) in
    Random.choice picks.

Section WithEnv.

Variable E : Env.

Definition _micro_fix_suggestion (findings : list finding) : option string :=
  if negb (LLM_OK E) then None
  else
    match findings with
    | [] => None
    | f0 :: _ =>
        let system :=
          "Return a single line of code or a minimal statement that fixes the error. No preface, no prose." in
        let user :=
          ("Suggest a single-line code change for this error. "
           ++ "Return ONLY the code change line or the minimal statement (no explanations)."
           ++ Py.LF
           ++ "Error: " ++ msg f0 ++ Py.LF
           ++ "File:  " ++ file f0 ++ ":" ++ Py.str_of_int (line f0) ++ Py.LF
           ++ "If a one-liner isn't possible, return: Add a failing test for this case first.")%string in
        let reply := _asi_chat_once E system user 60 (Qmake 3 10) in
        if Dyn.truthy_opt reply then reply else None
    end.

(** The table of the heuristic tier: the first test that holds gives
    the tip. *)
Definition tip_of (msg : string) : string :=
  if Py.contains "control reaches end of non-void function" msg
  then "add a return on all paths (e.g., return <value>;)"
  else if Py.contains "undefined reference" msg || Py.contains "linker" msg
  then "link missing object/library or provide the definition"
  else if Py.contains "not defined" msg || Py.contains "nameerror" msg
  then "define/import the symbol before use"
  else if Py.contains "type mismatch" msg || Py.contains "cannot convert" msg
  then "adjust the type/cast or the function signature"
  else if Py.contains "assert" msg || Py.contains "failed" msg
  then "update precondition or fix logic to satisfy the assertion"
  else "fix the first reported error; later ones cascade".

Definition heuristic (findings : list finding) : string :=
  let '(msg, loc) :=
    match findings with
    | f0 :: _ => (Py.lower (msg f0), loc_of f0)
    | [] => ("", "")
    end in
  let tip := tip_of msg in
  let base := if Py.truthy loc then (loc ++ " — " ++ tip)%string else tip in
  Py.strip (Re.sub Re.spaces " " base).

(** [_concise_fix_or_summary]: a reply of the service is always
    prefixed with the location. *)
Definition _concise_fix_or_summary (findings : list finding) (lang : pyval)
  : string :=
  let fix_ := _micro_fix_suggestion findings in
  match fix_, findings with
  | Some fix_, f0 :: _ =>
      if Py.truthy fix_ then
        let loc := loc_of f0 in
        if Py.truthy loc then (loc ++ " — " ++ fix_)%string else fix_
      else heuristic findings
  | _, _ => heuristic findings
  end.

Definition create_text_chat (text : string) : outmsg :=
  ChatMessage [TextContent text].

Definition send_two_lines (sender line1 line2 : string) : M unit :=
  send sender (create_text_chat line1) ;;;
  send sender (create_text_chat line2).

Definition is_start (content : list content_item) : bool :=
  existsb (fun c => match c with StartSessionContent => true | _ => false end)
          content.

Definition greeted (sender : string) : M bool :=
  fun w => (Ok (existsb (String.eqb sender) (_GREETED_MEMORY w)), w).

Definition remember (sender : string) : M unit :=
  fun w =>
    (Ok tt, {| tape := tape w; outbox := outbox w;
               _GREETED_MEMORY := sender :: _GREETED_MEMORY w;
               _last_seen_ts := _last_seen_ts w |}).

Definition GREETING_LINE : string :=
  "shut your b*tch *ss up and provide the error".

(** The reply to a text in which findings were found. *)
Definition reply_findings (sender : string) (findings : list finding)
           (lang : pyval) : M unit :=
  let line1 := _concise_fix_or_summary findings lang in
  let basic :=
    match findings with
    | f0 :: _ => String.eqb (file f0) "(unknown)"
    | [] => false
    end in
  line2 <- _brainrot_quip_raw lang basic ;;
  send_two_lines sender line1 line2.

Definition reply_no_error (sender : string) : M unit :=
  line2 <- _brainrot_quip_raw PNone false ;;
  send_two_lines sender GREETING_LINE line2.

(** The plain-text path at the end of the handler; its last test is
    [_GREET_PAT.search(text) or True]. *)
Definition plain_text (sender text : string) : M unit :=
  findings <- lift (_extract_findings (PStr text) PNone) ;;
  match findings with
  | _ :: _ =>
      let lang := of_option (_guess_lang_from_findings findings) in
      reply_findings sender findings lang ;;;
      send sender ChatAcknowledgement
  | [] =>
      if Intent.found Intent._GREET_PAT text || true then
        reply_no_error sender ;;;
        send sender ChatAcknowledgement
      else ret tt
  end.

(** [on_chat_or_review(ctx, sender, msg)] *)
Definition on_chat_or_review (sender : string) (content : list content_item)
  : M unit :=
  known <- greeted sender ;;
  (if is_start content && negb known then
     remember sender ;;;
     send sender
       (create_text_chat
          "Hey! I’m **Chaos Reviewer** — paste an error or ask for a quick code note.")
   else ret tt) ;;;
  let text := Py.strip (_collect_text content) in
  if negb (Py.truthy text) then ret tt
  else if Intent.found Intent._PRAISE_PAT text then
    line2 <- _brainrot_quip_raw PNone false ;;
    send_two_lines sender "u be glazing me brahh" line2 ;;;
    send sender ChatAcknowledgement
  else
    match json_loads E text with
    | Some (PDict data) =>
        if Dyn.has_key "log_tail" data then
          context <- lift (Dyn.get (PDict data) "context") ;;
          lang <- lift (Dyn.get (Dyn.or_ context (PDict [])) "lang") ;;
          let lang := Dyn.or_ lang PNone in
          log_tail <- lift (Dyn.get (PDict data) "log_tail") ;;
          let log_tail := Dyn.or_ log_tail (PStr "") in
          findings <- lift (_extract_findings log_tail lang) ;;
          let lang :=
            Dyn.or_ lang (of_option (_guess_lang_from_findings findings)) in
          (match findings with
           | _ :: _ => reply_findings sender findings lang
           | [] => reply_no_error sender
           end) ;;;
          send sender ChatAcknowledgement
        else plain_text sender text
    | _ => plain_text sender text
    end.

End WithEnv.

End Agent.

(* ------------------------------------------------------------------ *)
(** * src/Chaos Reviewer/Agent.py *)
(* ------------------------------------------------------------------ *)

(** [int(v)] of a decoded value. *)
Module Int.

(** Digits with single underscores between them. *)
Fixpoint digits (after_digit : bool) (acc : Z) (s : string) : option Z :=
  match s with
  | EmptyString => if after_digit then Some acc else None
  | String c s' =>
      if Py.isdigit c
      then digits true (10 * acc + Z.of_nat (Py.code c - 48)) s'
      else if (Py.code c =? 95)%nat && after_digit then digits false acc s'
      else None
  end.

Definition of_str (s : string) : option Z :=
  match Py.strip s with
  | String "-" s' => option_map Z.opp (digits false 0 s')
  | String "+" s' => digits false 0 s'
  | s' => digits false 0 s'
  end.

Definition of_val (v : pyval) : result Z :=
  match v with
  | PInt n => Ok n
  | PBool b => Ok (if b then 1 else 0)%Z
  | PFloat q => Ok (Z.quot (Qnum q) (Zpos (Qden q)))
  | PStr s => match of_str s with Some n => Ok n | None => Raise ValueError end
  | PNone | PList _ | PDict _ => Raise TypeError
  end.

End Int.

Module ChaosReviewer.

Definition FILE_LINE_PATTERNS : list Re.pattern :=
  [Patterns.gcc_chaos; Patterns.traceback_chaos; Patterns.tsc].

(** [_extract_findings]: the text is [log_text or ""]. *)
Definition _extract_findings (log_text : pyval) (lang_hint : pyval)
  : result (list finding) :=
  match Dyn.or_ log_text (PStr "") with
  | PStr s => Ok (Findings.extract FILE_LINE_PATTERNS s)
  | _ => Raise TypeError
  end.

Definition QUIPS_BRAINROT : Table.t :=
  [("cpp",
    ["Ohio code moment: missing return cooked the build.";
     "6-7… and the function dipped before returning. Skibidi no return.";
     "Control path NPC’d out. Add a return, blud.";
     "Cooked path. Low taper fade your logic and return something, fr."]);
   ("python",
    ["Traceback doing doom scrolling. Add the check, keep it sigma.";
     "Cringe None bug. Did you pray today? Add a guard.";
     "Sussy exception arc — tighten that branch, biggest bird style."]);
   ("typescript",
    ["Types won’t glaze themselves — narrow it, gigachad dev.";
     "TS said ‘string’, you gave ‘number’. Ohio assign, fr.";
     "Rizz up the types: refine that union, shmlawg."]);
   ("default",
    ["Cooked build. Not the mosquito again.";
     "Goofy ahh pipeline crashed out — apply the fix and mew on.";
     "Put the fries in the bag… and the return in the function.";
     "Goated with the sauce once tests pass, blud.";
     "Skibidi";
     "Sigma";
     "Chad";
     "Gigachad";
     "Fine Shyt – work hard"]);
   ("italian",
    ["Ballerina Cappuccina pirouetted away with your semicolons.";
     "Bombombini Gusini says add that return, fr.";
     "Tralalero Tralala stomping the bug with Nike on.";
     "Chimpanzini Bananini approved the patch diff."]);
   ("basic",
    ["Negative Aura"])].

Definition _brainrot_quip_raw (lang : pyval) (basic : bool) : M string :=
  if basic then Random.choice (Table.item QUIPS_BRAINROT "basic")
  else
    key <- lift (lang_key lang) ;;
    let pool :=
      Table.get QUIPS_BRAINROT key (Table.item QUIPS_BRAINROT "default") in
    r <- Random.random ;;
    let picks :=
      pool ++ (if Qltb r (Qmake 1 4) then Table.item QUIPS_BRAINROT "italian"
               else []) in
    Random.choice picks.

Section WithEnv.

Variable E : Env.

(** The two attempts of a composer: the first service when a key is
    configured, the second when the first gave nothing. *)
Definition generate (system user : string) (tokens1 tokens2 : nat)
  : option string :=
  let reply :=
    if Py.truthy (ASI1_API_KEY E)
    then _asi_chat_once E system user tokens1 (Qmake 1 4)
    else None in
  if Dyn.truthy_opt reply then reply
  else _free_llm_chat_once E system user tokens2 (Qmake 1 4).

Definition _llm_one_liner (findings : list finding) : option string :=
  match findings with
  | [] => None
  | f0 :: _ =>
      let '(system, user) :=
        if BRAINROT E then
          ("You are a chaotic Gen Z code reviewer using playful brain-rot slang, "
           ++ "but you still give the exact fix. Respond in 1 short line max."
           ++ Py.LF
           ++ "Format strictly: [emoji roast] + exact minimal fix." ++ Py.LF
           ++ "No preface, no extra sentences, no markdown code fences. Keep it ~20–40 words.",
           "Error: " ++ msg f0 ++ Py.LF
           ++ "Location: " ++ file f0 ++ ":" ++ Py.str_of_int (line f0) ++ Py.LF
           ++ "Return: one line that roasts lightly and then states the exact minimal change (e.g., add a guard, import, return).")%string
        else
          ("Return a single line of code or a minimal statement that fixes the error. No preface, no prose.",
           "Suggest a single-line code change for this error. "
           ++ "Return ONLY the code change line or the minimal statement (no explanations)."
           ++ Py.LF
           ++ "Error: " ++ msg f0 ++ Py.LF
           ++ "File:  " ++ file f0 ++ ":" ++ Py.str_of_int (line f0) ++ Py.LF
           ++ "If a one-liner isn't possible, return: Add a failing test for this case first.")%string in
      let reply := generate system user 70 80 in
      match reply with
      | Some r => if Py.truthy r then Some (Py.strip r) else None
      | None => None
      end
  end.

(** [str(lang or 'unknown')] *)
Definition lang_text (lang : pyval) : string :=
  match Dyn.or_ lang (PStr "unknown") with
  | PStr s => s
  | v => py_repr E v
  end.

Definition _llm_solution_text (findings : list finding) (lang : pyval)
  : option string :=
  match findings with
  | [] => None
  | f0 :: _ =>
      let '(system, user) :=
        if BRAINROT E then
          ("You are a Gen Z brain-rot code reviewer (playful, not mean). "
           ++ "Return 1–2 short sentences total: tiny roast + clear technical fix & why it works. "
           ++ "Use emojis like 💀🔥😭 sparingly. No markdown code fences.",
           "Language: " ++ lang_text lang ++ Py.LF
           ++ "First error: " ++ msg f0 ++ Py.LF
           ++ "Write concise roast + exact fix + why. <= 45 words.")%string
        else
          ("Explain fixes to software errors concisely. Respond in 2–3 short sentences. No preface.",
           "Language: " ++ lang_text lang ++ Py.LF
           ++ "First error message: " ++ msg f0 ++ Py.LF
           ++ "Explain the minimal change and why it works. Keep it concrete and brief.")%string in
      let reply := generate system user 110 120 in
      match reply with
      | Some r =>
          if Py.truthy r then
            let text := Re.sub Re.spaces " " (Py.strip r) in
            Some (Py.take 350 text
                  ++ (if (350 <? String.length text)%nat then "…" else ""))%string
          else None
      | None => None
      end
  end.

(** The table of the heuristic tier: the first test that holds gives
    the roast and the tip. *)
Definition roast_tip (msg : string) : string * string :=
  if Py.contains "zerodivisionerror" msg || Py.contains "division by zero" msg
  then ("💀 math said ‘nah’ fr fr —", "add a divisor==0 guard before the divide.")
  else if Py.contains "control reaches end of non-void" msg
  then ("😭 function ghosted the return —", "ensure every path returns a value.")
  else if Py.contains "undefined reference" msg
          || Py.contains "ld returned 1 exit" msg || Py.contains "linker" msg
  then ("🤡 linker cooked —", "link missing obj/lib or implement the symbol.")
  else if Py.contains "modulenotfounderror" msg
  then ("📦 not installed, bestie —", "pip install it / add to requirements.txt.")
  else if Py.contains "cannot import name" msg
  then ("🔀 import beef —", "use the moved symbol or pin compatible versions.")
  else if Py.contains "nonetype" msg
          || (Py.contains "attributeerror" msg && Py.contains "none" msg)
  then ("💀 null vibes —", "guard for None or ensure the factory returns an instance.")
  else if Py.contains "not defined" msg || Py.contains "nameerror" msg
  then ("🧠 forgot the symbol —", "define/import it before use.")
  else if Py.contains "type mismatch" msg || Py.contains "cannot convert" msg
          || Py.contains "typeerror" msg
  then ("🎭 types beefing —", "cast/adjust signature or fix callsite type.")
  else if Py.contains "assert" msg || Py.contains "failed" msg
  then ("🔥 assertion said ‘cap’ —", "fix the logic or update precondition.")
  else ("🧩 first error is the boss —", "fix the top one; others will fall in line.").

Definition heuristic (findings : list finding) : string :=
  let '(msg, loc) :=
    match findings with
    | f0 :: _ => (Py.lower (msg f0), loc_of f0)
    | [] => ("", "")
    end in
  let '(roast, tip) := roast_tip msg in
  let line := (roast ++ " " ++ tip)%string in
  if Py.truthy loc then (loc ++ " — " ++ line)%string else line.

(** [_concise_fix_or_summary]: a reply of a service is prefixed with
    the location unless its lower-case form starts with the lower-case
    location. *)
Definition _concise_fix_or_summary (findings : list finding) (lang : pyval)
  : string :=
  match _llm_one_liner findings, findings with
  | Some fix_, f0 :: _ =>
      if Py.truthy fix_ then
        let loc := loc_of f0 in
        if Py.truthy loc && negb (Py.startswith (Py.lower fix_) (Py.lower loc))
        then (loc ++ " — " ++ fix_)%string
        else fix_
      else heuristic findings
  | _, _ => heuristic findings
  end.

Definition _looks_like_success (text : string) : bool :=
  Intent.found Intent._SUCCESS_PAT text.

(** [_send_two_bubbles]: the extra lines go into the first message. *)
Definition _send_two_bubbles (sender line1 line2 : string)
           (extra_lines_bubble1 : option (list string)) : M unit :=
  let extra :=
    match extra_lines_bubble1 with
    | Some l => map TextContent (filter Py.truthy l)
    | None => []
    end in
  send sender (ChatMessage (TextContent line1 :: extra)) ;;;
  if Py.truthy line2 then send sender (ChatMessage [TextContent line2])
  else ret tt.

Definition is_unknown (findings : list finding) : bool :=
  match findings with
  | f0 :: _ => String.eqb (file f0) "(unknown)"
  | [] => false
  end.

(** The reply to a text in which findings were found. *)
Definition reply_findings (sender : string) (findings : list finding)
           (lang : pyval) : M unit :=
  let line1 := _concise_fix_or_summary findings lang in
  line2 <- _brainrot_quip_raw lang (is_unknown findings) ;;
  let solution := _llm_solution_text findings lang in
  let extra :=
    match solution with
    | Some s => if Py.truthy s then Some ["Solution: " ++ s]%string else None
    | None => None
    end in
  _send_two_bubbles sender line1 line2 extra.

Definition fixed_reply (sender line1 : string) : M unit :=
  line2 <- _brainrot_quip_raw PNone false ;;
  _send_two_bubbles sender line1 line2 None.

Definition plain_text (sender text : string) : M unit :=
  findings <- lift (_extract_findings (PStr text) PNone) ;;
  match findings with
  | _ :: _ =>
      let lang := of_option (_guess_lang_from_findings findings) in
      reply_findings sender findings lang ;;;
      send sender ChatAcknowledgement
  | [] =>
      if Intent.found Intent._GREET_PAT text then
        fixed_reply sender "shut up and provide the error" ;;;
        send sender ChatAcknowledgement
      else
        fixed_reply sender "shut  up and provide the error" ;;;
        send sender ChatAcknowledgement
  end.

(** [on_chat_or_review(ctx, sender, msg)] *)
Definition on_chat_or_review (sender : string) (content : list content_item)
  : M unit :=
  let text := Py.strip (_collect_text content) in
  if negb (Py.truthy text) then ret tt
  else if _looks_like_success text then
    fixed_reply sender "GG KING" ;;;
    send sender ChatAcknowledgement
  else if Intent.found Intent._PRAISE_PAT text then
    fixed_reply sender "u be glazing me brahh" ;;;
    send sender ChatAcknowledgement
  else
    match json_loads E text with
    | Some (PDict data) =>
        if Dyn.has_key "log_tail" data || Dyn.has_key "text" data then
          context <- lift (Dyn.get (PDict data) "context") ;;
          lang <- lift (Dyn.get (Dyn.or_ context (PDict [])) "lang") ;;
          let lang := Dyn.or_ lang PNone in
          log_tail <- lift (Dyn.get (PDict data) "log_tail") ;;
          raw_payload <- lift (Dyn.strip (Dyn.or_ log_tail (PStr ""))) ;;
          text_ <- lift (Dyn.get (PDict data) "text") ;;
          free_text <- lift (Dyn.strip (Dyn.or_ text_ (PStr ""))) ;;
          if Py.truthy raw_payload then
            findings <- lift (_extract_findings (PStr raw_payload) lang) ;;
            let lang :=
              Dyn.or_ lang (of_option (_guess_lang_from_findings findings)) in
            (match findings with
             | _ :: _ => reply_findings sender findings lang
             | [] => fixed_reply sender "shut up and provide the error"
             end) ;;;
            send sender ChatAcknowledgement
          else
            plain_text sender (if Py.truthy free_text then free_text else text)
        else plain_text sender text
    | _ => plain_text sender text
    end.

(** ** The gist bridge *)

(** What one poll cycle meets outside: the two settings, what
    [_gist_get_file] returned, whether the PATCH request of
    [_gist_put_file] went through, and the clock. *)
Record cycle : Type :=
  { REQ_GIST_ID : string;
    GIST_TOKEN : string;
    fetched : option string;
    patch_ok : bool;
    now : Z }.

Record payload : Type := { ts : Z; lines : list string }.

(** [_gist_put_file]: [False] without a token and when the request
    fails. *)
Definition _gist_put_file (c : cycle) (content : payload) : bool :=
  if negb (Py.truthy (Py.strip (GIST_TOKEN c))) then false
  else patch_ok c.

Definition get_last_seen : M Z := fun w => (Ok (_last_seen_ts w), w).

Definition set_last_seen (ts : Z) : M unit :=
  fun w =>
    (Ok tt, {| tape := tape w; outbox := outbox w;
               _GREETED_MEMORY := _GREETED_MEMORY w;
               _last_seen_ts := ts |}).

Definition with_solution (line1 : string) (sol : option string) : string :=
  match sol with
  | Some s => if Py.truthy s then (line1 ++ Py.LF ++ "Solution: " ++ s)%string
              else line1
  | None => line1
  end.

Definition greeting_payload (c : cycle) : M payload :=
  line2 <- _brainrot_quip_raw PNone false ;;
  ret {| ts := now c; lines := ["shut up and provide the error"; line2] |}.

(** The payload for a request that was accepted. *)
Definition compose_payload (c : cycle) (data : pyval) : M payload :=
  context <- lift (Dyn.get data "context") ;;
  lang <- lift (Dyn.get (Dyn.or_ context (PDict [])) "lang") ;;
  let lang := Dyn.or_ lang PNone in
  log_tail_ <- lift (Dyn.get data "log_tail") ;;
  log_tail <- lift (Dyn.strip (Dyn.or_ log_tail_ (PStr ""))) ;;
  text_ <- lift (Dyn.get data "text") ;;
  text_alt <- lift (Dyn.strip (Dyn.or_ text_ (PStr ""))) ;;
  if Py.truthy log_tail then
    findings <- lift (_extract_findings (PStr log_tail) lang) ;;
    let lang := Dyn.or_ lang (of_option (_guess_lang_from_findings findings)) in
    match findings with
    | _ :: _ =>
        let line1 := _concise_fix_or_summary findings lang in
        line2 <- _brainrot_quip_raw lang (is_unknown findings) ;;
        let sol := _llm_solution_text findings lang in
        ret {| ts := now c; lines := [with_solution line1 sol; line2] |}
    | [] => greeting_payload c
    end
  else
    let txt := text_alt in
    if Intent.found Intent._GREET_PAT txt then greeting_payload c
    else
      findings <- lift (_extract_findings (PStr txt) PNone) ;;
      match findings with
      | _ :: _ =>
          let lang := of_option (_guess_lang_from_findings findings) in
          let line1 := _concise_fix_or_summary findings lang in
          let sol := _llm_solution_text findings lang in
          line2 <- _brainrot_quip_raw lang false ;;
          ret {| ts := now c; lines := [with_solution line1 sol; line2] |}
      | [] => greeting_payload c
      end.

(** [int(data.get("ts") or 0)] *)
Definition request_ts (data : pyval) : result Z :=
  match Dyn.get data "ts" with
  | Ok v => Int.of_val (Dyn.or_ v (PInt 0))
  | Raise e => Raise e
  end.

(** [_poll_gist_requests]: [None] when the cycle ends before a
    response is posted, otherwise the response and whether
    [_gist_put_file] reported success. *)
Definition _poll_gist_requests (c : cycle) : M (option (payload * bool)) :=
  let req_gid := Py.strip (REQ_GIST_ID c) in
  if negb (Py.truthy req_gid) then ret None
  else
    match fetched c with
    | None => ret None
    | Some raw =>
        if negb (Py.truthy raw) then ret None
        else
          match json_loads E raw with
          | None => ret None
          | Some data =>
              ts <- lift (request_ts data) ;;
              last <- get_last_seen ;;
              if (ts <=? last)%Z then ret None
              else
                set_last_seen ts ;;;
                p <- compose_payload c data ;;
                let ok := _gist_put_file c p in
                ret (Some (p, ok))
          end
    end.

End WithEnv.

End ChaosReviewer.

(* ------------------------------------------------------------------ *)
(** * src/agent/webhook.py *)
(* ------------------------------------------------------------------ *)

Module Webhook.

Definition QUIPS : Table.t :=
  [("cpp",
    ["Ohio code moment: missing return cooked the build.";
     "6-7… and the function dipped before returning. Skibidi no return.";
     "Control path NPC’d out. Add a return, blud.";
     "Cooked path. Low taper fade your logic and return something, fr."]);
   ("python",
    ["Traceback doing doom scrolling. Add the check, keep it sigma.";
     "Cringe None bug. Did you pray today? Add a guard.";
     "Sussy exception arc — tighten that branch, biggest bird style."]);
   ("typescript",
    ["Types won’t glaze themselves — narrow it, gigachad dev.";
     "TS said ‘string’, you gave ‘number’. Ohio assign, fr.";
     "Rizz up the types: refine that union, shmlawg."]);
   ("default",
    ["Cooked build. Not the mosquito again.";
     "Goofy ahh pipeline crashed out — apply the fix and mew on.";
     "Put the fries in the bag… and the return in the function.";
     "Goated with the sauce once tests pass, blud.";
     "Skibidi";
     "Sigma";
     "Chad";
     "Gigachad";
     "Fine Shyt – work hard"]);
   ("basic",
    ["Negative Aura – A made-up term used to describe someone with a bad vibe or uncool energy. When someone loses so many aura points that they’re put in the negative, then they have negative aura."])].

Definition ITALIAN : list string :=
  ["Ballerina Cappuccina pirouetted away with your semicolons.";
   "Bombombini Gusini says add that return, fr.";
   "Tralalero Tralala stomping the bug with Nike on.";
   "Chimpanzini Bananini approved the patch diff."].

Definition GREETING_LINE : string :=
  "shut your b*tch *ss up and provide the error".

Definition PRAISE_LINE : string := "u be glazing me brahh".

Definition FILELINE_PATS : list Re.pattern :=
  [Patterns.gcc_agent; Patterns.tsc; Patterns.traceback_agent].

(** The structured part of [first_finding]: the first pattern with a
    match whose [msg] group is not empty. *)
Fixpoint first_structured (pats : list Re.pattern) (text : string)
  : option (string * Z * string) :=
  match pats with
  | [] => None
  | pat :: pats' =>
      match Re.search pat text with
      | Some m =>
          let g := Re.groupdict pat m in
          if Dyn.truthy_opt (Re.dict_get "msg" g) then
            let file_ := Py.strip (Dyn.or_str (Re.dict_get "file" g) "(unknown)") in
            let line_ :=
              match Re.dict_get "line" g with
              | Some s => if Py.truthy s then Py.int_digits 0 s else 1%Z
              | None => 1%Z
              end in
            let msg_ :=
              Re.sub Re.spaces " " (Py.strip (Dyn.or_str (Re.dict_get "msg" g) "")) in
            Some (file_, line_, msg_)
          else first_structured pats' text
      | None => first_structured pats' text
      end
  end.

Fixpoint first_keyword (lines : list string) : option (string * Z * string) :=
  match lines with
  | [] => None
  | ln :: lines' =>
      if Py.contains "error" (Py.lower ln) || Py.contains "failed" (Py.lower ln)
      then Some ("(unknown)", 1%Z, Py.strip ln)
      else first_keyword lines'
  end.

(** [first_finding(text)], with [text or ""] resolved by the caller *)
Definition first_finding (text : string) : option (string * Z * string) :=
  match first_structured FILELINE_PATS text with
  | Some f => Some f
  | None => first_keyword (Py.last_n 200 (Py.splitlines text))
  end.

(** [fix_line(find)] *)
Definition fix_line (find : option (string * Z * string)) : string :=
  match find with
  | None => GREETING_LINE
  | Some (file_, line_, msg) =>
      let msg_l := Py.lower msg in
      let loc := (file_ ++ ":" ++ Py.str_of_int line_)%string in
      let tip :=
        if Py.contains "control reaches end of non-void function" msg_l
        then "add a return on all paths (e.g., return <value>;)"
        else if Py.contains "undefined reference" msg_l
                || Py.contains "ld returned 1 exit status" msg_l
                || Py.contains "linker" msg_l
        then "link missing object/library or provide the definition"
        else if Py.contains "not defined" msg_l || Py.contains "nameerror" msg_l
        then "define/import the symbol before use"
        else if Py.contains "type 'number' is not assignable to type 'string'" msg_l
                || Py.contains "type mismatch" msg_l
                || Py.contains "cannot convert" msg_l
        then "adjust the type/cast or the function signature"
        else if Py.contains "assert" msg_l || Py.contains "failed" msg_l
        then "update precondition or fix logic to satisfy the assertion"
        else "fix the first reported error; later ones cascade" in
      (loc ++ " — " ++ tip)%string
  end.

(** [quip(lang, basic, spice)] *)
Definition quip (lang : string) (basic : bool) (spice : Q) : M string :=
  if basic then Random.choice (Table.item QUIPS "basic")
  else
    let pool := Table.get QUIPS lang (Table.item QUIPS "default") in
    r <- Random.random ;;
    let pool := if Qltb r spice then pool ++ ITALIAN else pool in
    Random.choice pool.

End Webhook.

(** The endpoint [/chaos] of webhook.py. *)
Module Endpoint.
Import Re Patterns.

(** The request body: pydantic admits a dictionary, a string and a string,
    each optional. *)
Record Payload : Type :=
  { context : option (list (string * pyval));
    log_tail : option string;
    text : option string }.

(** [\b(thanks|thank\s*you|ty|appreciate|you(\s*are|\'re)? (good|great|amazing|awesome|goat|goated))\b] *)
Definition praise : pattern :=
  {| rx := Seq [WordB;
                Grp 1 (Alts [Str "thanks";
                             Seq [Str "thank"; Star Py.isspace; Str "you"];
                             Str "ty"; Str "appreciate";
                             Seq [Str "you";
                                  Opt (Grp 2 (Alt (Seq [Star Py.isspace; Str "are"])
                                                  (Str "'re")));
                                  Chr (c " ");
                                  Grp 3 (Alts [Str "good"; Str "great";
                                               Str "amazing"; Str "awesome";
                                               Str "goat"; Str "goated"])]]);
                WordB];
     fl := no_flags; groupindex := [] |}.

(** [\b(hi|hello|hey|yo|sup|gm|good (morning|afternoon|evening)|what\'?s up)\b] *)
Definition greet : pattern :=
  {| rx := Seq [WordB;
                Grp 1 (Alts [Str "hi"; Str "hello"; Str "hey"; Str "yo";
                             Str "sup"; Str "gm";
                             Seq [Str "good ";
                                  Grp 2 (Alts [Str "morning"; Str "afternoon";
                                               Str "evening"])];
                             Seq [Str "what"; Opt (Chr (c "'")); Str "s up"]]);
                WordB];
     fl := no_flags; groupindex := [] |}.

Definition by_text (text : string) : string :=
  let t := Py.lower text in
  if Py.contains ".ts" t || Py.contains "tsc" t then "typescript"
  else if Py.contains ".py" t || Py.contains "traceback" t then "python"
  else "cpp".

(** [detect_lang(lang_hint, text)]; the hint is whatever the context
    holds under [lang]. *)
Definition detect_lang (lang_hint : pyval) (text : string) : string :=
  match lang_hint with
  | PStr s =>
      if String.eqb s "cpp" || String.eqb s "python" || String.eqb s "typescript"
      then s
      else by_text text
  | _ => by_text text
  end.

(** [(p.context or {}).get("lang") if p.context else None] *)
Definition lang_hint (p : Payload) : pyval :=
  match context p with
  | Some (_ :: _ as d) =>
      match Dyn.assoc "lang" d with Some v => v | None => PNone end
  | _ => PNone
  end.

Definition is_unknown (finding : option (string * Z * string)) : bool :=
  match finding with
  | Some (file_, _, _) => String.eqb file_ "(unknown)"
  | None => false
  end.

(** [chaos(p)]; the result is the list under [lines]. *)
Definition chaos (p : Payload) : M (list string) :=
  let text := Py.lower (Py.strip (Dyn.or_str (text p) "")) in
  if Py.truthy text then
    if Intent.found praise text then
      line2 <- Webhook.quip "default" false (Qmake 1 4) ;;
      ret [Webhook.PRAISE_LINE; line2]
    else if Intent.found greet text then
      line2 <- Webhook.quip "default" false (Qmake 1 4) ;;
      ret [Webhook.GREETING_LINE; line2]
    else
      line2 <- Webhook.quip "default" false (Qmake 1 4) ;;
      ret [Webhook.GREETING_LINE; line2]
  else
    let lang := detect_lang (lang_hint p) (Dyn.or_str (log_tail p) "") in
    let finding := Webhook.first_finding (Dyn.or_str (log_tail p) "") in
    let line1 := Webhook.fix_line finding in
    let basic := is_unknown finding in
    line2 <- Webhook.quip lang basic (Qmake 1 4) ;;
    ret [line1; line2].

End Endpoint.


(* ------------------------------------------------------------------ *)
(** * Vocabulary of the statements *)
(* ------------------------------------------------------------------ *)

Module Spec.

(** The findings one family contributes when nothing cuts its scan short:
    those of its matches that pass [if file_ and line_]. *)
Definition family (pat : Re.pattern) (text : string) : list finding :=
  filter Findings.well_formed (map (Findings.fields pat) (Re.finditer pat text)).

(** The structured pass of the extractor. *)
Definition structured (pats : list Re.pattern) (text : string) : list finding :=
  Findings.scan_patterns pats text [].

(** The keyword pass of the extractor. *)
Definition fallback (text : string) : list finding :=
  Findings.keyword_scan (Py.last_n 300 (Py.splitlines text)) [].


(** A finding with a file and a positive line. *)
Definition located (f : finding) : Prop :=
  file f <> "" /\ (1 <= line f)%Z.

(** A finding of the keyword pass. *)
Definition unlocated (f : finding) : Prop :=
  file f = "(unknown)" /\ line f = 1%Z.







(** The lines of a quip table outside its entry [basic], with the lines
    of a separate flavor list. *)
Definition other_lines (d : Table.t) (flavor : list string) : list string :=
  flat_map snd (filter (fun kv => negb (String.eqb (fst kv) "basic")) d)
  ++ flavor.

(** [r] is the one line of the entry [basic] of [d], and no other table
    has it. *)
Definition basic_pick (d : Table.t) (flavor : list string)
           (r : result string) : Prop :=
  exists q, r = Ok q
            /\ Table.item d "basic" = [q]
            /\ ~ In q (other_lines d flavor).

(** A rule above the missing-module rule in the table of Agent.py holds
    of the lower-case message. *)
Definition earlier_rule (msg : string) : bool :=
  Py.contains "zerodivisionerror" msg || Py.contains "division by zero" msg
  || Py.contains "control reaches end of non-void" msg
  || Py.contains "undefined reference" msg
  || Py.contains "ld returned 1 exit" msg || Py.contains "linker" msg.

(** The line of the missing-module rule. *)
Definition not_installed : string :=
  "📦 not installed, bestie — pip install it / add to requirements.txt.".

(** A computation that leaves the watermark of the bridge alone. *)
Definition keeps_watermark {A} (m : M A) : Prop :=
  forall w, _last_seen_ts (snd (m w)) = _last_seen_ts w.

(** Both services give nothing, whatever the request. *)
Definition services_silent (E : Env) : Prop :=
  (forall system user tokens temp,
      Dyn.truthy_opt (_asi_chat_once E system user tokens temp) = false)
  /\ (forall system user tokens temp,
      Dyn.truthy_opt (_free_llm_chat_once E system user tokens temp) = false).

End Spec.

(* ------------------------------------------------------------------ *)
(** * Concrete environments, for the examples *)
(* ------------------------------------------------------------------ *)

Module Fixture.

(** A decoder that knows the documents of a table. *)
Fixpoint decode (table : list (string * pyval)) (s : string) : option pyval :=
  match table with
  | [] => None
  | (doc, v) :: table' => if String.eqb s doc then Some v else decode table' s
  end.

(** The text [{"log_tail": 5}] and its value. *)
Definition doc_number : string :=
  ("{" ++ Py.DQ ++ "log_tail" ++ Py.DQ ++ ": 5}")%string.

Definition val_number : pyval := PDict [("log_tail", PInt 5)].

(** The text [{"ts": 5, "log_tail": "build failed"}] and its value. *)
Definition doc_request : string :=
  ("{" ++ Py.DQ ++ "ts" ++ Py.DQ ++ ": 5, " ++ Py.DQ ++ "log_tail" ++ Py.DQ
   ++ ": " ++ Py.DQ ++ "build failed" ++ Py.DQ ++ "}")%string.

Definition val_request : pyval :=
  PDict [("ts", PInt 5); ("log_tail", PStr "build failed")].

Definition documents : list (string * pyval) :=
  [(doc_number, val_number); (doc_request, val_request)].

(** No service is reachable. *)
Definition offline : Env :=
  {| ASI1_API_KEY := "";
     LLM_OK := false;
     BRAINROT := true;
     _asi_chat_once := fun _ _ _ _ => None;
     _free_llm_chat_once := fun _ _ _ _ => None;
     json_loads := decode documents;
     py_repr := fun _ => "" |}.

(** The first service answers every request with [reply]. *)
Definition answering (reply : string) : Env :=
  {| ASI1_API_KEY := "key";
     LLM_OK := true;
     BRAINROT := true;
     _asi_chat_once := fun _ _ _ _ => Some reply;
     _free_llm_chat_once := fun _ _ _ _ => None;
     json_loads := decode documents;
     py_repr := fun _ => "" |}.

Definition start : world :=
  {| tape := []; outbox := []; _GREETED_MEMORY := []; _last_seen_ts := 0 |}.



(** A traceback alone. *)
Definition traceback_only : string :=
  ("Traceback (most recent call last):" ++ Py.LF
   ++ "  File " ++ Py.DQ ++ "a.py" ++ Py.DQ ++ ", line 3, in <module>" ++ Py.LF
   ++ "    1/0" ++ Py.LF
   ++ "ZeroDivisionError: division by zero")%string.

Definition missing_module : finding :=
  {| file := "app.py"; line := 3;
     msg := "ModuleNotFoundError: No module named 'requests'" |}.

Definition missing_linker : finding :=
  {| file := "app.py"; line := 3;
     msg := "ModuleNotFoundError: No module named 'linker'" |}.

Definition missing_return : finding :=
  {| file := "main.c"; line := 10; msg := "missing return" |}.

(** A poll cycle that fetches [doc_request] and cannot post. *)
Definition cycle_post_fails : ChaosReviewer.cycle :=
  {| ChaosReviewer.REQ_GIST_ID := "abc";
     ChaosReviewer.GIST_TOKEN := "token";
     ChaosReviewer.fetched := Some doc_request;
     ChaosReviewer.patch_ok := false;
     ChaosReviewer.now := 100 |}.

End Fixture.


(* ------------------------------------------------------------------ *)
(** * Vocabulary of the further properties *)
(* ------------------------------------------------------------------ *)

Module Obs.

(** All the lines of a quip table. *)
Definition all_lines (d : Table.t) : list string := flat_map snd d.

(** The lines the selector draws from for a language key: the entry of the
    key, or the entry [default] when there is none, and the entry
    [italian]. *)
Definition pool (d : Table.t) (key : string) : list string :=
  Table.get d key (Table.item d "default") ++ Table.item d "italian".

(** The selector of the two agent files, over a table. *)
Definition selector (d : Table.t) (lang : pyval) (basic : bool) : M string :=
  if basic then Random.choice (Table.item d "basic")
  else
    key <- lift (lang_key lang) ;;
    let pool := Table.get d key (Table.item d "default") in
    r <- Random.random ;;
    let picks :=
      pool ++ (if Qltb r (Qmake 1 4) then Table.item d "italian" else []) in
    Random.choice picks.



(** [d.get(k)] on the entries of a dictionary. *)
Definition field (d : list (string * pyval)) (k : string) : pyval :=
  match Dyn.assoc k d with Some v => v | None => PNone end.






(** Two states that differ at most in the tape of the random generator. *)
Definition same_but_tape (w w' : world) : Prop :=
  outbox w' = outbox w
  /\ _GREETED_MEMORY w' = _GREETED_MEMORY w
  /\ _last_seen_ts w' = _last_seen_ts w.













End Obs.

(* ------------------------------------------------------------------ *)
(** * The model at work *)
(* ------------------------------------------------------------------ *)

(** A compiler diagnostic is found by the first pattern of both files. *)
Example extract_compiler_line :
  Agent._extract_findings
    (PStr "main.c:10: error: control reaches end of non-void function") PNone
  = Ok [{| file := "main.c"; line := 10;
           msg := "control reaches end of non-void function" |}]
  /\ ChaosReviewer._extract_findings
       (PStr "main.c:10:4: error: control reaches end of non-void function") PNone
     = Ok [{| file := "main.c"; line := 10;
              msg := "control reaches end of non-void function" |}].
Proof. split; vm_compute; reflexivity. Qed.

(** A traceback is a structured finding for Agent.py and a keyword
    finding for agent.py. *)
Example extract_traceback :
  ChaosReviewer._extract_findings (PStr Fixture.traceback_only) PNone
  = Ok [{| file := "a.py"; line := 3; msg := "1/0" |}]
  /\ Agent._extract_findings (PStr Fixture.traceback_only) PNone
     = Ok [{| file := "(unknown)"; line := 1;
              msg := "ZeroDivisionError: division by zero" |}].
Proof. split; vm_compute; reflexivity. Qed.

(** A plain text with a diagnostic, no service reachable: two messages
    and the acknowledgement. *)
Example handler_plain_text :
  Agent.on_chat_or_review Fixture.offline "user"
    [TextContent "x.c:3: error: control reaches end of non-void function"]
    Fixture.start
  = (Ok tt,
     {| tape := [];
        outbox :=
          [("user",
            ChatMessage
              [TextContent "x.c:3 — add a return on all paths (e.g., return <value>;)"]);
           ("user",
            ChatMessage
              [TextContent "Ohio code moment: missing return cooked the build."]);
           ("user", ChatAcknowledgement)];
        _GREETED_MEMORY := [];
        _last_seen_ts := 0 |}).
Proof. vm_compute. reflexivity. Qed.

(* ------------------------------------------------------------------ *)
(** * Properties of the extractor *)
(* ------------------------------------------------------------------ *)

Section ListFacts.

Variable A : Type.


Lemma take_full (n : nat) (l : list A) :
  (List.length l <= n)%nat -> firstn n l = l.
Proof. apply firstn_all2. Qed.

(** Once [n] elements are there, what follows does not matter. *)
Lemma take_app_enough (n : nat) (l r : list A) :
  (n <= List.length l)%nat -> firstn n (l ++ r) = firstn n l.
Proof.
  intros H. rewrite firstn_app.
  replace (n - List.length l)%nat with 0%nat by lia.
  simpl. apply app_nil_r.
Qed.

End ListFacts.

Section Loops.

Variable pat : Re.pattern.





(** The inner loop with its [break] adds the well-formed findings of the
    matches, up to five in all. *)
Lemma scan_matches_take (ms : list Re.rmatch) :
  forall acc, (List.length acc < 5)%nat ->
    Findings.scan_matches pat ms acc
    = firstn 5 (acc ++ filter Findings.well_formed (map (Findings.fields pat) ms)).
Proof.
  induction ms as [|m ms IH]; intros acc Hacc;
    cbn [Findings.scan_matches map filter].
  - rewrite app_nil_r. symmetry. apply take_full. lia.
  - destruct (Findings.well_formed (Findings.fields pat m)) eqn:W.
    + destruct (5 <=? List.length (acc ++ [Findings.fields pat m]))%nat eqn:L.
      * apply Nat.leb_le in L. rewrite length_app in L. simpl in L.
        replace (acc ++ Findings.fields pat m
                     :: filter Findings.well_formed (map (Findings.fields pat) ms))
          with ((acc ++ [Findings.fields pat m])
                  ++ filter Findings.well_formed (map (Findings.fields pat) ms))
          by (rewrite <- app_assoc; reflexivity).
        rewrite take_app_enough by (rewrite length_app; simpl; lia).
        symmetry. apply take_full. rewrite length_app. simpl. lia.
      * apply Nat.leb_gt in L. rewrite IH by exact L.
        rewrite <- app_assoc. reflexivity.
    + replace (5 <=? List.length acc)%nat with false
        by (symmetry; apply Nat.leb_gt; exact Hacc).
      apply IH. exact Hacc.
Qed.

End Loops.

(** The outer loop with its [break] concatenates the families, up to five
    findings in all. *)
Lemma scan_patterns_take (text : string) (pats : list Re.pattern) :
  forall acc, (List.length acc < 5)%nat ->
    Findings.scan_patterns pats text acc
    = firstn 5 (acc ++ flat_map (fun p => Spec.family p text) pats).
Proof.
  induction pats as [|p pats IH]; intros acc Hacc;
    cbn [Findings.scan_patterns flat_map].
  - rewrite app_nil_r. symmetry. apply take_full. lia.
  - rewrite scan_matches_take by exact Hacc.
    fold (Spec.family p text).
    rewrite app_assoc.
    destruct (5 <=? List.length (firstn 5 (acc ++ Spec.family p text)))%nat eqn:L.
    + apply Nat.leb_le in L. rewrite length_firstn in L.
      symmetry. apply take_app_enough. lia.
    + apply Nat.leb_gt in L. rewrite length_firstn in L.
      rewrite take_full by lia. apply IH. lia.
Qed.

Lemma structured_take (pats : list Re.pattern) (text : string) :
  Spec.structured pats text
  = firstn 5 (flat_map (fun p => Spec.family p text) pats).
Proof.
  unfold Spec.structured. now rewrite scan_patterns_take by (simpl; lia).
Qed.




(** The keyword loop with its [break] gives at most three findings, all
    of them at [(unknown):1]. *)
Lemma keyword_scan_inv (lines : list string) :
  forall acc, (List.length acc < 3)%nat -> Forall Spec.unlocated acc ->
    Forall Spec.unlocated (Findings.keyword_scan lines acc)
    /\ (List.length (Findings.keyword_scan lines acc) <= 3)%nat.
Proof.
  induction lines as [|ln lines IH]; intros acc Hlen Hacc;
    cbn [Findings.keyword_scan].
  - split; [exact Hacc | lia].
  - destruct (Findings.is_keyword_line ln); [|now apply IH].
    set (acc' := acc ++ [{| file := "(unknown)"; line := 1; msg := Py.strip ln |}]).
    assert (Hacc' : Forall Spec.unlocated acc').
    { apply Forall_app. split; [exact Hacc|].
      constructor; [|constructor]. split; reflexivity. }
    assert (Hlen' : List.length acc' = S (List.length acc))
      by (unfold acc'; rewrite length_app; simpl; lia).
    destruct (3 <=? List.length acc')%nat eqn:L.
    + split; [exact Hacc' | lia].
    + apply Nat.leb_gt in L. now apply IH.
Qed.

Lemma fallback_inv (text : string) :
  Forall Spec.unlocated (Spec.fallback text)
  /\ (List.length (Spec.fallback text) <= 3)%nat.
Proof. apply keyword_scan_inv; [simpl; lia | constructor]. Qed.


Lemma extract_eq (pats : list Re.pattern) (text : string) :
  Findings.extract pats text
  = match Spec.structured pats text with
    | [] => Spec.fallback text
    | _ :: _ => Spec.structured pats text
    end.
Proof. reflexivity. Qed.



Lemma agent_extract_text (text : string) (hint : pyval) :
  Agent._extract_findings (PStr text) hint
  = Ok (Findings.extract Agent.FILE_LINE_PATTERNS text).
Proof. reflexivity. Qed.


Lemma merged_families (pats : list Re.pattern) (text : string) :
  Findings.extract pats text
  = match firstn 5 (flat_map (fun p => Spec.family p text) pats) with
    | [] => Spec.fallback text
    | f :: fs => f :: fs
    end.
Proof.
  rewrite extract_eq, structured_take.
  now destruct (firstn 5 (flat_map (fun p => Spec.family p text) pats)).
Qed.



(** C3, as stated, fails for agent.py: on [None] its extractor raises. *)
Lemma agent_extract_none_raises :
  Agent._extract_findings PNone PNone = Raise TypeError.
Proof. reflexivity. Qed.

(** C3, amended.  Both extractors return the empty list on the empty
    string; on [None] the extractor of Agent.py returns the empty list and
    the extractor of agent.py, which is declared for strings, raises
    [TypeError]. *)
Theorem extract_of_nothing (hint : pyval) :
  ChaosReviewer._extract_findings (PStr "") hint = Ok []
  /\ ChaosReviewer._extract_findings PNone hint = Ok []
  /\ Agent._extract_findings (PStr "") hint = Ok []
  /\ Agent._extract_findings PNone hint = Raise TypeError.
Proof. repeat split; vm_compute; reflexivity. Qed.

Lemma traceback_agent_rejected (m : Re.rmatch) :
  Findings.well_formed (Findings.fields Patterns.traceback_agent m) = false.
Proof. reflexivity. Qed.

Lemma traceback_agent_adds_nothing (ms : list Re.rmatch) :
  forall acc, Findings.scan_matches Patterns.traceback_agent ms acc = acc.
Proof.
  induction ms as [|m ms IH]; intros acc; cbn [Findings.scan_matches];
    [reflexivity|].
  rewrite traceback_agent_rejected.
  destruct (5 <=? List.length acc)%nat; [reflexivity | apply IH].
Qed.

Lemma family_no_match (p : Re.pattern) (text : string) :
  Re.finditer p text = [] -> Spec.family p text = [].
Proof. unfold Spec.family. now intros ->. Qed.

Lemma traceback_agent_family (text : string) :
  Spec.family Patterns.traceback_agent text = [].
Proof.
  unfold Spec.family.
  induction (Re.finditer Patterns.traceback_agent text) as [|m ms IH];
    [reflexivity|].
  cbn [map filter]. now rewrite traceback_agent_rejected.
Qed.

(** C10.  In agent.py the traceback pattern adds nothing to the findings,
    whatever the text: its file and line groups have no name, so no match
    passes [if file_ and line_].  Hence a text on which the two other
    patterns have no match is answered by the keyword pass alone, all of
    whose findings are at [(unknown)], line 1. *)
Theorem traceback_family_silent :
  (forall text acc,
      Findings.scan_matches Patterns.traceback_agent
        (Re.finditer Patterns.traceback_agent text) acc = acc)
  /\ (forall text hint,
         Re.finditer Patterns.gcc_agent text = [] ->
         Re.finditer Patterns.tsc text = [] ->
         Agent._extract_findings (PStr text) hint = Ok (Spec.fallback text)
         /\ Forall Spec.unlocated (Spec.fallback text)).
Proof.
  split.
  - intros text acc. apply traceback_agent_adds_nothing.
  - intros text hint Hgcc Htsc. split; [|apply fallback_inv].
    rewrite agent_extract_text, merged_families.
    unfold Agent.FILE_LINE_PATTERNS. cbn [flat_map].
    rewrite (family_no_match _ _ Hgcc), (family_no_match _ _ Htsc),
      traceback_agent_family.
    reflexivity.
Qed.

(** The traceback of the examples is answered by the keyword pass. *)
Lemma traceback_family_silent_witness :
  Re.finditer Patterns.gcc_agent Fixture.traceback_only = []
  /\ Re.finditer Patterns.tsc Fixture.traceback_only = []
  /\ Agent._extract_findings (PStr Fixture.traceback_only) PNone
     = Ok (Spec.fallback Fixture.traceback_only)
  /\ Forall Spec.unlocated (Spec.fallback Fixture.traceback_only).
Proof.
  assert (Hgcc : Re.finditer Patterns.gcc_agent Fixture.traceback_only = [])
    by (vm_compute; reflexivity).
  assert (Htsc : Re.finditer Patterns.tsc Fixture.traceback_only = [])
    by (vm_compute; reflexivity).
  split; [exact Hgcc|]. split; [exact Htsc|].
  exact (proj2 traceback_family_silent Fixture.traceback_only PNone Hgcc Htsc).
Defined.

(* ------------------------------------------------------------------ *)
(** * Properties of the remark selector *)
(* ------------------------------------------------------------------ *)

Lemma draw_total (w : world) : exists x w', Random.draw w = (Ok x, w').
Proof.
  unfold Random.draw. destruct (tape w) as [|x t]; eauto.
Qed.

(** A choice in a list of one line is that line. *)
Lemma choice_single (x : string) (w : world) :
  fst (Random.choice [x] w) = Ok x.
Proof.
  unfold Random.choice, bind.
  destruct (draw_total w) as [n [w' ->]].
  cbn [ret fst List.length]. rewrite Nat.mod_1_r. reflexivity.
Qed.

Lemma not_in_by_eqb (q : string) (l : list string) :
  existsb (String.eqb q) l = false -> ~ In q l.
Proof.
  intros H Hin.
  assert (existsb (String.eqb q) l = true) as H'
      by (apply existsb_exists; exists q; split; [exact Hin | apply String.eqb_refl]).
  congruence.
Qed.

(** C8.  With [basic=True] the result is the one line of the entry
    [basic], which no language table, default table or flavor table has,
    whatever the language argument; this holds of the selector of each of
    the three files. *)
Theorem basic_remark_from_basic_table
        (lang : pyval) (lang_name : string) (spice : Q) (w : world) :
  Spec.basic_pick Agent.QUIPS_BRAINROT []
    (fst (Agent._brainrot_quip_raw lang true w))
  /\ Spec.basic_pick ChaosReviewer.QUIPS_BRAINROT []
       (fst (ChaosReviewer._brainrot_quip_raw lang true w))
  /\ Spec.basic_pick Webhook.QUIPS Webhook.ITALIAN
       (fst (Webhook.quip lang_name true spice w)).
Proof.
  repeat split.
  - exists "Negative Aura". split; [apply choice_single|].
    split; [reflexivity|]. apply not_in_by_eqb. vm_compute. reflexivity.
  - exists "Negative Aura". split; [apply choice_single|].
    split; [reflexivity|]. apply not_in_by_eqb. vm_compute. reflexivity.
  - eexists. split; [apply choice_single|].
    split; [reflexivity|]. apply not_in_by_eqb. vm_compute. reflexivity.
Qed.

(* ------------------------------------------------------------------ *)
(** * Properties of the composers *)
(* ------------------------------------------------------------------ *)

Lemma generate_silent (E : Env) (system user : string) (t1 t2 : nat) :
  Spec.services_silent E ->
  Dyn.truthy_opt (ChaosReviewer.generate E system user t1 t2) = false.
Proof.
  intros [Hasi Hfree]. unfold ChaosReviewer.generate.
  destruct (Py.truthy (ASI1_API_KEY E)).
  - rewrite Hasi. apply Hfree.
  - cbn [Dyn.truthy_opt]. apply Hfree.
Qed.

Lemma one_liner_silent (E : Env) (findings : list finding) :
  Spec.services_silent E -> ChaosReviewer._llm_one_liner E findings = None.
Proof.
  intros H. unfold ChaosReviewer._llm_one_liner.
  destruct findings as [|f0 rest]; [reflexivity|].
  destruct (BRAINROT E);
    match goal with
    | |- context [ChaosReviewer.generate E ?s ?u ?a ?b] =>
        pose proof (generate_silent E s u a b H) as Hg;
        destruct (ChaosReviewer.generate E s u a b) as [r|]
    end; cbn [Dyn.truthy_opt] in Hg; try rewrite Hg; reflexivity.
Qed.

Lemma solution_silent (E : Env) (findings : list finding) (lang : pyval) :
  Spec.services_silent E ->
  ChaosReviewer._llm_solution_text E findings lang = None.
Proof.
  intros H. unfold ChaosReviewer._llm_solution_text.
  destruct findings as [|f0 rest]; [reflexivity|].
  destruct (BRAINROT E);
    match goal with
    | |- context [ChaosReviewer.generate E ?s ?u ?a ?b] =>
        pose proof (generate_silent E s u a b H) as Hg;
        destruct (ChaosReviewer.generate E s u a b) as [r|]
    end; cbn [Dyn.truthy_opt] in Hg; try rewrite Hg; reflexivity.
Qed.

(** C4, as stated, fails.  With no service reachable and a
    ModuleNotFoundError message on top, agent.py and webhook.py, whose
    tables have no missing-module rule, answer with the generic tip, and
    Agent.py answers with the tip of the linker rule when the message
    names a module called linker: none of the three lines says
    [not installed]. *)
Lemma missing_module_rule_missed :
  Spec.services_silent Fixture.offline
  /\ Agent._concise_fix_or_summary Fixture.offline [Fixture.missing_module] PNone
     = "app.py:3 — fix the first reported error; later ones cascade"
  /\ Webhook.fix_line (Some ("app.py", 3%Z, msg Fixture.missing_module))
     = "app.py:3 — fix the first reported error; later ones cascade"
  /\ ChaosReviewer._concise_fix_or_summary Fixture.offline
       [Fixture.missing_linker] PNone
     = "app.py:3 — 🤡 linker cooked — link missing obj/lib or implement the symbol."
  /\ Py.contains "modulenotfounderror" (Py.lower (msg Fixture.missing_module))
     = true
  /\ Py.contains "modulenotfounderror" (Py.lower (msg Fixture.missing_linker))
     = true.
Proof.
  split; [split; intros; reflexivity|].
  repeat split; vm_compute; reflexivity.
Qed.

(** C4, amended.  In Agent.py, when both services give nothing and the
    lower-case top message contains [modulenotfounderror] and none of the
    substrings of the three rules above that one, the fix composer returns
    the line of the missing-module rule, after the location when there is
    one, and the explanation composer returns nothing. *)
Theorem missing_module_tip
        (E : Env) (f0 : finding) (rest : list finding) (lang : pyval) :
  Spec.services_silent E ->
  Py.contains "modulenotfounderror" (Py.lower (msg f0)) = true ->
  Spec.earlier_rule (Py.lower (msg f0)) = false ->
  ChaosReviewer._concise_fix_or_summary E (f0 :: rest) lang
  = (if Py.truthy (loc_of f0)
     then loc_of f0 ++ " — " ++ Spec.not_installed
     else Spec.not_installed)%string
  /\ ChaosReviewer._llm_solution_text E (f0 :: rest) lang = None.
Proof.
  intros Hsilent Hmod Hearlier.
  split; [|now apply solution_silent].
  unfold ChaosReviewer._concise_fix_or_summary.
  rewrite one_liner_silent by exact Hsilent.
  unfold ChaosReviewer.heuristic, ChaosReviewer.roast_tip.
  unfold Spec.earlier_rule in Hearlier.
  repeat (apply orb_false_iff in Hearlier;
          destruct Hearlier as [Hearlier ?]).
  repeat match goal with
         | H : Py.contains _ _ = false |- _ => rewrite H; clear H
         end.
  rewrite Hmod. cbn [orb]. reflexivity.
Qed.

(** The rule at work on [ModuleNotFoundError: No module named 'requests']. *)
Lemma missing_module_tip_witness :
  ChaosReviewer._concise_fix_or_summary Fixture.offline
    [Fixture.missing_module] PNone
  = ("app.py:3" ++ " — " ++ Spec.not_installed)%string
  /\ ChaosReviewer._llm_solution_text Fixture.offline
       [Fixture.missing_module] PNone = None.
Proof.
  apply (missing_module_tip Fixture.offline Fixture.missing_module [] PNone).
  - split; intros; reflexivity.
  - vm_compute; reflexivity.
  - vm_compute; reflexivity.
Defined.

Lemma startswith_lower_prefix (p q : string) :
  forall s, Py.startswith s (p ++ q) = true ->
            Py.startswith (Py.lower s) (Py.lower p) = true.
Proof.
  induction p as [|a p IH]; intros s H; [now destruct s|].
  destruct s as [|b s]; [discriminate H|].
  cbn [append Py.startswith Py.lower] in H |- *.
  apply andb_true_iff in H. destruct H as [Hab Hs].
  apply Ascii.eqb_eq in Hab. subst b.
  rewrite Ascii.eqb_refl. cbn [andb]. now apply IH.
Qed.

Lemma loc_truthy (f0 : finding) :
  Py.truthy (file f0) = true -> line f0 <> 0%Z ->
  Py.truthy (loc_of f0) = true.
Proof.
  intros Hf Hl. unfold loc_of. rewrite Hf.
  apply Z.eqb_neq in Hl. rewrite Hl. cbn [negb andb].
  destruct (file f0); [discriminate Hf | reflexivity].
Qed.

(** C5, as stated, fails.  In Agent.py a reply that starts with
    [main.c:10] but not with the prefix [main.c:10 — ] is returned as it
    is; in agent.py a reply that already starts with the prefix gets it a
    second time. *)
Lemma location_prefix_mishandled :
  (ChaosReviewer._llm_one_liner (Fixture.answering "main.c:10: add a return")
     [Fixture.missing_return]
   = Some "main.c:10: add a return"
   /\ Py.startswith "main.c:10: add a return" "main.c:10 — " = false
   /\ ChaosReviewer._concise_fix_or_summary
        (Fixture.answering "main.c:10: add a return")
        [Fixture.missing_return] PNone
      = "main.c:10: add a return")
  /\ (Agent._micro_fix_suggestion (Fixture.answering "main.c:10 — add a return")
        [Fixture.missing_return]
      = Some "main.c:10 — add a return"
      /\ Py.startswith "main.c:10 — add a return" "main.c:10 — " = true
      /\ Agent._concise_fix_or_summary
           (Fixture.answering "main.c:10 — add a return")
           [Fixture.missing_return] PNone
         = "main.c:10 — main.c:10 — add a return").
Proof. repeat split; vm_compute; reflexivity. Qed.

(** C5, amended.  For a top finding with a file and a line and a
    non-empty text returned by the generative tier: Agent.py prepends
    [file:line — ] exactly when the lower-case text does not start with
    the lower-case [file:line], so never when the text already starts with
    the prefix; agent.py always prepends it. *)
Theorem location_prefix_rule
        (E : Env) (f0 : finding) (rest : list finding) (lang : pyval)
        (reply : string) :
  Py.truthy (file f0) = true ->
  line f0 <> 0%Z ->
  Py.truthy reply = true ->
  (ChaosReviewer._llm_one_liner E (f0 :: rest) = Some reply ->
   ChaosReviewer._concise_fix_or_summary E (f0 :: rest) lang
   = if Py.startswith (Py.lower reply) (Py.lower (loc_of f0))
     then reply
     else (loc_of f0 ++ " — " ++ reply)%string)
  /\ (ChaosReviewer._llm_one_liner E (f0 :: rest) = Some reply ->
      Py.startswith reply (loc_of f0 ++ " — ") = true ->
      ChaosReviewer._concise_fix_or_summary E (f0 :: rest) lang = reply)
  /\ (Agent._micro_fix_suggestion E (f0 :: rest) = Some reply ->
      Agent._concise_fix_or_summary E (f0 :: rest) lang
      = (loc_of f0 ++ " — " ++ reply)%string).
Proof.
  intros Hf Hl Hr. pose proof (loc_truthy f0 Hf Hl) as Hloc.
  assert (Hchaos :
            ChaosReviewer._llm_one_liner E (f0 :: rest) = Some reply ->
            ChaosReviewer._concise_fix_or_summary E (f0 :: rest) lang
            = if Py.startswith (Py.lower reply) (Py.lower (loc_of f0))
              then reply
              else (loc_of f0 ++ " — " ++ reply)%string).
  { intros H. unfold ChaosReviewer._concise_fix_or_summary.
    rewrite H, Hr, Hloc. cbn [andb].
    now destruct (Py.startswith (Py.lower reply) (Py.lower (loc_of f0))). }
  split; [exact Hchaos|]. split.
  - intros H Hpre. rewrite (Hchaos H).
    now rewrite (startswith_lower_prefix _ _ _ Hpre).
  - intros H. unfold Agent._concise_fix_or_summary.
    now rewrite H, Hr, Hloc.
Qed.

(** The rule at work: the first service answers [main.c:10: add a return]
    for the finding at [main.c:10]. *)
Lemma location_prefix_rule_witness :
  ChaosReviewer._concise_fix_or_summary
    (Fixture.answering "main.c:10: add a return") [Fixture.missing_return] PNone
  = "main.c:10: add a return"
  /\ Agent._concise_fix_or_summary
       (Fixture.answering "main.c:10: add a return") [Fixture.missing_return] PNone
     = "main.c:10 — main.c:10: add a return".
Proof.
  destruct (location_prefix_rule (Fixture.answering "main.c:10: add a return")
              Fixture.missing_return [] PNone "main.c:10: add a return"
              eq_refl ltac:(discriminate) eq_refl)
    as [Hchaos [_ Hagent]].
  split; [exact (Hchaos eq_refl) | exact (Hagent eq_refl)].
Defined.

(* ------------------------------------------------------------------ *)
(** * The substitution of white space *)
(* ------------------------------------------------------------------ *)

Section Runs.

Variable p : ascii -> bool.


Lemma drop_length (s : string) :
  forall n, String.length (Py.drop n s) = (String.length s - n)%nat.
Proof.
  induction s as [|c s IH]; intros [|n]; cbn [Py.drop String.length];
    try reflexivity.
  apply IH.
Qed.



End Runs.











(* ------------------------------------------------------------------ *)
(** * Properties of the message handler *)
(* ------------------------------------------------------------------ *)

(** C7.  The handlers raise on the text [{"log_tail": 5}], a JSON
    envelope whose [log_tail] is a number: the handler of Agent.py calls
    [.strip()] on the number ([AttributeError]), the handler of agent.py
    passes it to [pat.finditer] ([TypeError]); nothing is sent. *)
Theorem handler_raises_on_number
        (E : Env) (sender : string) (w : world) :
  json_loads E Fixture.doc_number = Some Fixture.val_number ->
  ChaosReviewer.on_chat_or_review E sender [TextContent Fixture.doc_number] w
  = (Raise AttributeError, w)
  /\ Agent.on_chat_or_review E sender [TextContent Fixture.doc_number] w
     = (Raise TypeError, w).
Proof.
  intros Hjson.
  assert (Htext : Py.strip (_collect_text [TextContent Fixture.doc_number])
                  = Fixture.doc_number) by (vm_compute; reflexivity).
  split.
  - unfold ChaosReviewer.on_chat_or_review. cbv zeta.
    rewrite Htext, Hjson. vm_compute. reflexivity.
  - unfold Agent.on_chat_or_review. cbv zeta.
    rewrite Htext, Hjson. vm_compute. reflexivity.
Qed.

(** A decoder that knows the document. *)
Lemma handler_raises_on_number_witness :
  ChaosReviewer.on_chat_or_review Fixture.offline "user"
    [TextContent Fixture.doc_number] Fixture.start
  = (Raise AttributeError, Fixture.start)
  /\ Agent.on_chat_or_review Fixture.offline "user"
       [TextContent Fixture.doc_number] Fixture.start
     = (Raise TypeError, Fixture.start).
Proof.
  apply (handler_raises_on_number Fixture.offline "user" Fixture.start).
  vm_compute. reflexivity.
Defined.

(* ------------------------------------------------------------------ *)
(** * Properties of the gist bridge *)
(* ------------------------------------------------------------------ *)

Lemma keeps_ret (A : Type) (a : A) : Spec.keeps_watermark (ret a).
Proof. intros w. reflexivity. Qed.

Lemma keeps_lift (A : Type) (r : result A) : Spec.keeps_watermark (lift r).
Proof. intros w. reflexivity. Qed.

Lemma keeps_raise (A : Type) (e : exn) : Spec.keeps_watermark (@raise A e).
Proof. intros w. reflexivity. Qed.

Lemma keeps_bind (A B : Type) (m : M A) (k : A -> M B) :
  Spec.keeps_watermark m -> (forall a, Spec.keeps_watermark (k a)) ->
  Spec.keeps_watermark (bind m k).
Proof.
  intros Hm Hk w. unfold bind. specialize (Hm w).
  destruct (m w) as [[a|e] w1]; cbn [snd] in *.
  - rewrite (Hk a w1). exact Hm.
  - exact Hm.
Qed.

Lemma keeps_draw : Spec.keeps_watermark Random.draw.
Proof. intros w. unfold Random.draw. now destruct (tape w). Qed.

Lemma keeps_random : Spec.keeps_watermark Random.random.
Proof.
  apply keeps_bind; [apply keeps_draw | intros; apply keeps_ret].
Qed.

Lemma keeps_choice (A : Type) (l : list A) :
  Spec.keeps_watermark (Random.choice l).
Proof.
  destruct l as [|d l]; [apply keeps_raise|].
  apply keeps_bind; [apply keeps_draw | intros; apply keeps_ret].
Qed.

Lemma keeps_quip (lang : pyval) (basic : bool) :
  Spec.keeps_watermark (ChaosReviewer._brainrot_quip_raw lang basic).
Proof.
  unfold ChaosReviewer._brainrot_quip_raw.
  destruct basic; [apply keeps_choice|].
  apply keeps_bind; [apply keeps_lift | intros key].
  apply keeps_bind; [apply keeps_random | intros r].
  apply keeps_choice.
Qed.

Ltac keeps_watermark :=
  repeat first
    [ apply keeps_ret
    | apply keeps_lift
    | apply keeps_quip
    | apply keeps_bind; [|intros]
    | match goal with
      | |- Spec.keeps_watermark (if ?b then _ else _) => destruct b
      | |- Spec.keeps_watermark (match ?x with _ => _ end) => destruct x
      end ].

(** Composing the response draws remarks and leaves the watermark alone. *)
Lemma keeps_compose (E : Env) (c : ChaosReviewer.cycle) (data : pyval) :
  Spec.keeps_watermark (ChaosReviewer.compose_payload E c data).
Proof.
  unfold ChaosReviewer.compose_payload, ChaosReviewer.greeting_payload.
  cbv zeta. keeps_watermark.
Qed.

(** One poll either leaves the state as it is and posts nothing, or
    accepts a request: a fetched document that decodes, with a time stamp
    above the watermark; the watermark then stands at that time stamp,
    whatever happens afterwards. *)
Lemma poll_inv (E : Env) (c : ChaosReviewer.cycle) (w : world) :
  ((forall p ok, fst (ChaosReviewer._poll_gist_requests E c w)
                 <> Ok (Some (p, ok)))
   /\ snd (ChaosReviewer._poll_gist_requests E c w) = w)
  \/ (exists raw data t,
         ChaosReviewer.fetched c = Some raw
         /\ json_loads E raw = Some data
         /\ ChaosReviewer.request_ts data = Ok t
         /\ (_last_seen_ts w < t)%Z
         /\ _last_seen_ts (snd (ChaosReviewer._poll_gist_requests E c w)) = t).
Proof.
  unfold ChaosReviewer._poll_gist_requests.
  destruct (negb (Py.truthy (Py.strip (ChaosReviewer.REQ_GIST_ID c))));
    [left; split; [intros p ok; discriminate | reflexivity]|].
  destruct (ChaosReviewer.fetched c) as [raw|];
    [|left; split; [intros p ok; discriminate | reflexivity]].
  destruct (negb (Py.truthy raw));
    [left; split; [intros p ok; discriminate | reflexivity]|].
  destruct (json_loads E raw) as [data|] eqn:Hj;
    [|left; split; [intros p ok; discriminate | reflexivity]].
  cbv [bind lift ChaosReviewer.get_last_seen ChaosReviewer.set_last_seen].
  destruct (ChaosReviewer.request_ts data) as [t|e] eqn:Ht;
    [|left; split; [intros p ok; discriminate | reflexivity]].
  destruct (t <=? _last_seen_ts w)%Z eqn:Hle;
    [left; split; [intros p ok; discriminate | reflexivity]|].
  right. exists raw, data, t.
  split; [reflexivity|]. split; [exact Hj|]. split; [exact Ht|].
  split; [apply Z.leb_gt; exact Hle|].
  match goal with
  | |- context [ChaosReviewer.compose_payload E c data ?w0] =>
      pose proof (keeps_compose E c data w0) as Hk;
      destruct (ChaosReviewer.compose_payload E c data w0) as [[p|e] w1]
  end; exact Hk.
Qed.

(** A poll that fetches a request whose time stamp is not above the
    watermark posts nothing. *)
Lemma poll_skips (E : Env) (c : ChaosReviewer.cycle) (w : world)
      (raw : string) (data : pyval) (t : Z) :
  ChaosReviewer.fetched c = Some raw ->
  json_loads E raw = Some data ->
  ChaosReviewer.request_ts data = Ok t ->
  (t <= _last_seen_ts w)%Z ->
  fst (ChaosReviewer._poll_gist_requests E c w) = Ok None.
Proof.
  intros Hf Hj Ht Hle. unfold ChaosReviewer._poll_gist_requests.
  destruct (negb (Py.truthy (Py.strip (ChaosReviewer.REQ_GIST_ID c))));
    [reflexivity|].
  rewrite Hf. destruct (negb (Py.truthy raw)); [reflexivity|].
  rewrite Hj. cbv [bind lift ChaosReviewer.get_last_seen]. rewrite Ht.
  apply Z.leb_le in Hle. rewrite Hle. reflexivity.
Qed.

(** C9, as stated, fails.  A request with time stamp 5 arrives while the
    watermark is 0 and the post fails: the watermark is 5 afterwards, and
    the next poll, which fetches the same document, posts nothing. *)
Lemma failed_post_is_not_retried :
  fst (ChaosReviewer._poll_gist_requests Fixture.offline
         Fixture.cycle_post_fails Fixture.start)
  = Ok (Some ({| ChaosReviewer.ts := 100;
                 ChaosReviewer.lines :=
                   ["(unknown):1 — 🔥 assertion said ‘cap’ — fix the logic or update precondition.";
                    "Negative Aura"] |}, false))
  /\ _last_seen_ts (snd (ChaosReviewer._poll_gist_requests Fixture.offline
                           Fixture.cycle_post_fails Fixture.start)) = 5%Z
  /\ fst (ChaosReviewer._poll_gist_requests Fixture.offline
            Fixture.cycle_post_fails
            (snd (ChaosReviewer._poll_gist_requests Fixture.offline
                    Fixture.cycle_post_fails Fixture.start)))
     = Ok None.
Proof. repeat split; vm_compute; reflexivity. Qed.

(** C9, amended.  The watermark changes only in a poll that fetched a
    document, decoded it and read from it a time stamp above the
    watermark, and it then stands at that time stamp.  It is moved before
    the response is composed and posted: whenever a response was posted,
    successfully or not, the watermark already stands at the time stamp of
    the request, so a later poll that fetches the same document posts
    nothing; a request whose post failed is not retried. *)
Theorem watermark_moves_before_post
        (E : Env) (c : ChaosReviewer.cycle) (w : world) :
  (_last_seen_ts (snd (ChaosReviewer._poll_gist_requests E c w))
   = _last_seen_ts w
   \/ exists raw data,
       ChaosReviewer.fetched c = Some raw
       /\ json_loads E raw = Some data
       /\ ChaosReviewer.request_ts data
          = Ok (_last_seen_ts (snd (ChaosReviewer._poll_gist_requests E c w)))
       /\ (_last_seen_ts w
           < _last_seen_ts (snd (ChaosReviewer._poll_gist_requests E c w)))%Z)
  /\ (forall p ok,
         fst (ChaosReviewer._poll_gist_requests E c w) = Ok (Some (p, ok)) ->
         (_last_seen_ts w
          < _last_seen_ts (snd (ChaosReviewer._poll_gist_requests E c w)))%Z
         /\ forall c' w',
             ChaosReviewer.fetched c' = ChaosReviewer.fetched c ->
             _last_seen_ts w'
             = _last_seen_ts (snd (ChaosReviewer._poll_gist_requests E c w)) ->
             fst (ChaosReviewer._poll_gist_requests E c' w') = Ok None).
Proof.
  destruct (poll_inv E c w) as [[Hnone Hsame] | [raw [data [t [Hf [Hj [Ht [Hlt Hw]]]]]]]].
  - split; [left; now rewrite Hsame|].
    intros p ok H. now destruct (Hnone p ok).
  - split.
    + right. exists raw, data. rewrite Hw. repeat split; assumption.
    + intros p ok _. rewrite Hw. split; [exact Hlt|].
      intros c' w' Hf' Hw'. rewrite Hf in Hf'.
      apply (poll_skips E c' w' raw data t Hf' Hj Ht). lia.
Qed.

(** After the failed post of the examples, with the watermark at 5, no
    poll that fetches the same document posts anything. *)
Lemma watermark_moves_before_post_witness :
  (0 < 5)%Z
  /\ forall c' w',
      ChaosReviewer.fetched c' = Some Fixture.doc_request ->
      _last_seen_ts w' = 5%Z ->
      fst (ChaosReviewer._poll_gist_requests Fixture.offline c' w') = Ok None.
Proof.
  exact (proj2 (watermark_moves_before_post Fixture.offline
                  Fixture.cycle_post_fails Fixture.start)
           {| ChaosReviewer.ts := 100;
              ChaosReviewer.lines :=
                ["(unknown):1 — 🔥 assertion said ‘cap’ — fix the logic or update precondition.";
                 "Negative Aura"] |}
           false eq_refl).
Defined.

(* ------------------------------------------------------------------ *)
(** * Further properties: the remark selector *)
(* ------------------------------------------------------------------ *)

Lemma draw_frame (w : world) :
  exists x w', Random.draw w = (Ok x, w') /\ Obs.same_but_tape w w'.
Proof.
  unfold Random.draw, Obs.same_but_tape.
  destruct (tape w) as [|x t]; eexists; eexists; split; try reflexivity;
    repeat split.
Qed.

Lemma same_but_tape_trans (w1 w2 w3 : world) :
  Obs.same_but_tape w1 w2 -> Obs.same_but_tape w2 w3 ->
  Obs.same_but_tape w1 w3.
Proof.
  unfold Obs.same_but_tape. intros [A [B C]] [A' [B' C']].
  repeat split; congruence.
Qed.

Lemma random_frame (w : world) :
  exists q w', Random.random w = (Ok q, w') /\ Obs.same_but_tape w w'.
Proof.
  unfold Random.random, bind. destruct (draw_frame w) as [x [w' [-> H]]].
  eexists; eexists; split; [reflexivity | exact H].
Qed.

(** A choice in a list that is not empty is one of its elements. *)
Lemma choice_in (A : Type) (l : list A) (w : world) :
  l <> [] ->
  exists x w', Random.choice l w = (Ok x, w') /\ In x l
               /\ Obs.same_but_tape w w'.
Proof.
  intros Hl. destruct l as [|d l]; [congruence|].
  unfold Random.choice, bind. destruct (draw_frame w) as [x [w' [-> H]]].
  eexists; eexists; split; [reflexivity|]. split; [|exact H].
  apply nth_In. apply Nat.mod_upper_bound. cbn [List.length]. lia.
Qed.

Lemma find_in (k : string) (d : Table.t) (v : list string) :
  Table.find k d = Some v -> In v (map snd d).
Proof.
  induction d as [|[k' v'] d IH]; cbn [Table.find map snd]; [discriminate|].
  destruct (String.eqb k k'); [intros [= ->]; now left | right; auto].
Qed.

Lemma get_in (d : Table.t) (k : string) (dflt : list string) :
  In (Table.get d k dflt) (dflt :: map snd d).
Proof.
  unfold Table.get. destruct (Table.find k d) as [v|] eqn:H;
    [right; eapply find_in; eassumption | now left].
Qed.


Section Selector.

Variable d : Table.t.
Hypothesis entries : Forall (fun v => v <> []) (map snd d).
Hypothesis has_default : In (Table.item d "default") (map snd d).
Hypothesis has_italian : In (Table.item d "italian") (map snd d).
Hypothesis has_basic : In (Table.item d "basic") (map snd d).

Lemma entry_nonempty (v : list string) : In v (map snd d) -> v <> [].
Proof. intros H. exact (proj1 (Forall_forall _ _) entries v H). Qed.

Lemma get_entry (k : string) :
  In (Table.get d k (Table.item d "default")) (map snd d).
Proof. destruct (get_in d k (Table.item d "default")) as [<-|H]; assumption. Qed.


(** The selector on a language that is a string or false: the pick is a
    line of the pool of the lower-case language. *)
Lemma selector_pick (lang : pyval) (key : string) (w : world) :
  lang_key lang = Ok key ->
  exists q w', Obs.selector d lang false w = (Ok q, w')
               /\ In q (Obs.pool d key) /\ Obs.same_but_tape w w'.
Proof.
  intros Hk. unfold Obs.selector, bind, lift. rewrite Hk.
  destruct (random_frame w) as [r [w1 [-> H1]]].
  set (picks := Table.get d key (Table.item d "default")
                ++ (if Qltb r (Qmake 1 4) then Table.item d "italian" else [])).
  assert (Hne : picks <> []).
  { unfold picks. intros H. apply app_eq_nil in H. destruct H as [H _].
    exact (entry_nonempty _ (get_entry key) H). }
  destruct (choice_in string picks w1 Hne) as [q [w2 [-> [Hin H2]]]].
  exists q, w2. split; [reflexivity|].
  split; [|eapply same_but_tape_trans; eassumption].
  unfold picks in Hin. unfold Obs.pool. apply in_or_app.
  apply in_app_or in Hin. destruct Hin as [Hin|Hin]; [now left|].
  destruct (Qltb r (Qmake 1 4)); [now right | destruct Hin].
Qed.


Lemma selector_raises (lang : pyval) (e : exn) (w : world) :
  lang_key lang = Raise e ->
  Obs.selector d lang false w = (Raise e, w).
Proof. intros Hk. unfold Obs.selector, bind, lift. now rewrite Hk. Qed.


End Selector.

Lemma lang_key_cases (lang : pyval) :
  (exists key, lang_key lang = Ok key) \/ lang_key lang = Raise AttributeError.
Proof.
  unfold lang_key. destruct (Dyn.or_ lang (PStr "")); eauto.
Qed.

Lemma chaos_table_entries :
  Forall (fun v : list string => v <> []) (map snd ChaosReviewer.QUIPS_BRAINROT).
Proof. repeat constructor; discriminate. Qed.

Lemma agent_table_entries :
  Forall (fun v : list string => v <> []) (map snd Agent.QUIPS_BRAINROT).
Proof. repeat constructor; discriminate. Qed.

Lemma chaos_table_keys :
  In (Table.item ChaosReviewer.QUIPS_BRAINROT "default")
     (map snd ChaosReviewer.QUIPS_BRAINROT)
  /\ In (Table.item ChaosReviewer.QUIPS_BRAINROT "italian")
        (map snd ChaosReviewer.QUIPS_BRAINROT)
  /\ In (Table.item ChaosReviewer.QUIPS_BRAINROT "basic")
        (map snd ChaosReviewer.QUIPS_BRAINROT).
Proof. cbn. tauto. Qed.

Lemma agent_table_keys :
  In (Table.item Agent.QUIPS_BRAINROT "default") (map snd Agent.QUIPS_BRAINROT)
  /\ In (Table.item Agent.QUIPS_BRAINROT "italian") (map snd Agent.QUIPS_BRAINROT)
  /\ In (Table.item Agent.QUIPS_BRAINROT "basic") (map snd Agent.QUIPS_BRAINROT).
Proof. cbn. tauto. Qed.

Lemma chaos_selector (lang : pyval) (basic : bool) :
  ChaosReviewer._brainrot_quip_raw lang basic
  = Obs.selector ChaosReviewer.QUIPS_BRAINROT lang basic.
Proof. reflexivity. Qed.

Lemma agent_selector (lang : pyval) (basic : bool) :
  Agent._brainrot_quip_raw lang basic
  = Obs.selector Agent.QUIPS_BRAINROT lang basic.
Proof. reflexivity. Qed.

(** X1.  Without the basic flag the remark selector of both agent files
    does one of two things, whatever the random draws.  On a language that
    is a string or a false value it returns a line of the pool of the
    lower-case language: the entry of that key, or the entry [default]
    when the table has no such key, or the entry [italian]; it sends
    nothing and changes no global.  On any other language value it raises
    [AttributeError] and leaves the state as it was. *)
Theorem remark_from_language_pool (lang : pyval) (w : world) :
  match lang_key lang with
  | Ok key =>
      (exists q w',
          ChaosReviewer._brainrot_quip_raw lang false w = (Ok q, w')
          /\ In q (Obs.pool ChaosReviewer.QUIPS_BRAINROT key)
          /\ Obs.same_but_tape w w')
      /\ (exists q w',
             Agent._brainrot_quip_raw lang false w = (Ok q, w')
             /\ In q (Obs.pool Agent.QUIPS_BRAINROT key)
             /\ Obs.same_but_tape w w')
  | Raise e =>
      e = AttributeError
      /\ ChaosReviewer._brainrot_quip_raw lang false w = (Raise e, w)
      /\ Agent._brainrot_quip_raw lang false w = (Raise e, w)
  end.
Proof.
  rewrite chaos_selector, agent_selector.
  destruct (lang_key lang) as [key|e] eqn:Hk.
  - split.
    + exact (selector_pick _ chaos_table_entries (proj1 chaos_table_keys)
               lang key w Hk).
    + exact (selector_pick _ agent_table_entries (proj1 agent_table_keys)
               lang key w Hk).
  - split.
    + destruct (lang_key_cases lang) as [[key H]|H]; congruence.
    + split; now apply selector_raises.
Qed.

(* ------------------------------------------------------------------ *)
(** * Further properties: the replies of the handlers *)
(* ------------------------------------------------------------------ *)


Lemma agent_lines_truthy (q : string) :
  In q (Obs.all_lines Agent.QUIPS_BRAINROT) -> Py.truthy q = true.
Proof.
  revert q. apply Forall_forall. repeat constructor.
Qed.






(** Running one computation after another. *)
Lemma bind_run (A B : Type) (m : M A) (k : A -> M B) (w w1 : world) (a : A) :
  m w = (Ok a, w1) -> bind m k w = k a w1.
Proof. intros H. unfold bind. now rewrite H. Qed.



Section ChaosReplies.

Variable E : Env.





End ChaosReplies.

Lemma bind_lift_ok (A B : Type) (a : A) (k : A -> M B) (w : world) :
  bind (lift (Ok a)) k w = k a w.
Proof. reflexivity. Qed.








Section AgentReplies.

Variable E : Env.





End AgentReplies.



(* ------------------------------------------------------------------ *)
(** * Further properties: the extractor *)
(* ------------------------------------------------------------------ *)

















(* ------------------------------------------------------------------ *)
(** * Further properties: the fix line *)
(* ------------------------------------------------------------------ *)

Lemma lower_app (a b : string) :
  Py.lower (a ++ b) = (Py.lower a ++ Py.lower b)%string.
Proof.
  induction a as [|c a IH]; cbn [append Py.lower]; [reflexivity|].
  now rewrite IH.
Qed.

Lemma startswith_app (a b : string) : Py.startswith (a ++ b) a = true.
Proof.
  induction a as [|c a IH]; cbn [append Py.startswith].
  - now destruct b.
  - now rewrite Ascii.eqb_refl, IH.
Qed.

Lemma located_loc (f0 : finding) :
  Spec.located f0 -> Py.truthy (loc_of f0) = true.
Proof.
  intros [Hf Hl]. apply loc_truthy; [|lia].
  destruct (file f0); [congruence | reflexivity].
Qed.

(** X6.  For a top finding with a non-empty file and a positive line, the
    fix line of Agent.py always starts, up to the case of letters, with
    [file:line], whether it comes from a service or from the table of the
    heuristic tier. *)
Theorem fix_line_starts_with_location
        (E : Env) (f0 : finding) (rest : list finding) (lang : pyval) :
  Spec.located f0 ->
  Py.startswith
    (Py.lower (ChaosReviewer._concise_fix_or_summary E (f0 :: rest) lang))
    (Py.lower (file f0 ++ ":" ++ Py.str_of_int (line f0)))
  = true.
Proof.
  intros Hloc. pose proof (located_loc f0 Hloc) as Ht.
  assert (Hl : loc_of f0 = (file f0 ++ ":" ++ Py.str_of_int (line f0))%string).
  { unfold loc_of in *.
    destruct (Py.truthy (file f0) && negb (line f0 =? 0)%Z);
      [reflexivity | discriminate Ht]. }
  rewrite <- Hl.
  assert (Hh : Py.startswith (Py.lower (ChaosReviewer.heuristic (f0 :: rest)))
                 (Py.lower (loc_of f0)) = true).
  { unfold ChaosReviewer.heuristic.
    destruct (ChaosReviewer.roast_tip (Py.lower (msg f0))) as [roast tip].
    rewrite Ht, lower_app. apply startswith_app. }
  unfold ChaosReviewer._concise_fix_or_summary.
  destruct (ChaosReviewer._llm_one_liner E (f0 :: rest)) as [fix_|];
    [|exact Hh].
  destruct (Py.truthy fix_); [|exact Hh].
  rewrite Ht. cbn [andb].
  destruct (Py.startswith (Py.lower fix_) (Py.lower (loc_of f0))) eqn:S;
    cbn [negb]; [exact S|].
  rewrite lower_app. apply startswith_app.
Qed.

(** A service that answers in capitals for the finding at [main.c:10]. *)
Lemma fix_line_starts_with_location_witness :
  Py.startswith
    (Py.lower (ChaosReviewer._concise_fix_or_summary
                 (Fixture.answering "MAIN.C:10 add a return")
                 [Fixture.missing_return] PNone))
    (Py.lower ("main.c" ++ ":" ++ Py.str_of_int 10))
  = true.
Proof.
  apply (fix_line_starts_with_location
           (Fixture.answering "MAIN.C:10 add a return")
           Fixture.missing_return [] PNone).
  split; [discriminate | cbn; lia].
Defined.

(* ------------------------------------------------------------------ *)
(** * Further properties: texts with keywords only *)
(* ------------------------------------------------------------------ *)






(* ------------------------------------------------------------------ *)
(** * Further properties: the bridge *)
(* ------------------------------------------------------------------ *)






(** X9.  Two edge cases of a poll that fetched a document which decodes.
    When the document is an object whose [ts] is missing or false, it is
    read as time stamp 0: while the watermark is not negative the poll
    posts nothing and changes nothing.  When the document is anything but
    an object, the poll raises [AttributeError] and changes nothing. *)
Theorem bridge_unstamped_or_not_object
        (E : Env) (c : ChaosReviewer.cycle) (w : world)
        (raw : string) (data : pyval) :
  Py.truthy (Py.strip (ChaosReviewer.REQ_GIST_ID c)) = true ->
  ChaosReviewer.fetched c = Some raw ->
  Py.truthy raw = true ->
  json_loads E raw = Some data ->
  match data with
  | PDict d =>
      Dyn.truthy (Obs.field d "ts") = false ->
      (0 <= _last_seen_ts w)%Z ->
      ChaosReviewer._poll_gist_requests E c w = (Ok None, w)
  | _ => ChaosReviewer._poll_gist_requests E c w = (Raise AttributeError, w)
  end.
Proof.
  intros Hgid Hf Hraw Hj.
  unfold ChaosReviewer._poll_gist_requests. cbv zeta.
  rewrite Hgid, Hf, Hraw, Hj. cbn [negb].
  destruct data as [| | | | | |d]; try reflexivity.
  intros Hts Hw.
  assert (Ht : ChaosReviewer.request_ts (PDict d) = Ok 0%Z).
  { unfold ChaosReviewer.request_ts.
    change (Dyn.get (PDict d) "ts") with (Ok (Obs.field d "ts")).
    unfold Dyn.or_. now rewrite Hts. }
  rewrite Ht, bind_lift_ok.
  unfold ChaosReviewer.get_last_seen at 1. unfold bind at 1.
  apply Z.leb_le in Hw. now rewrite Hw.
Qed.

(** The document [{"log_tail": 5}], which has no time stamp. *)
Lemma bridge_unstamped_or_not_object_witness :
  ChaosReviewer._poll_gist_requests Fixture.offline
    {| ChaosReviewer.REQ_GIST_ID := "abc";
       ChaosReviewer.GIST_TOKEN := "token";
       ChaosReviewer.fetched := Some Fixture.doc_number;
       ChaosReviewer.patch_ok := true;
       ChaosReviewer.now := 100 |} Fixture.start
  = (Ok None, Fixture.start).
Proof.
  apply (bridge_unstamped_or_not_object Fixture.offline
           {| ChaosReviewer.REQ_GIST_ID := "abc";
              ChaosReviewer.GIST_TOKEN := "token";
              ChaosReviewer.fetched := Some Fixture.doc_number;
              ChaosReviewer.patch_ok := true;
              ChaosReviewer.now := 100 |} Fixture.start
           Fixture.doc_number Fixture.val_number).
  - vm_compute. reflexivity.
  - reflexivity.
  - vm_compute. reflexivity.
  - vm_compute. reflexivity.
  - vm_compute. reflexivity.
  - vm_compute. discriminate.
Defined.

(* ------------------------------------------------------------------ *)
(** * Further properties: the endpoint of webhook.py *)
(* ------------------------------------------------------------------ *)






Lemma first_structured_app (a b : list Re.pattern) (text : string) :
  Webhook.first_structured (a ++ b) text
  = match Webhook.first_structured a text with
    | Some f => Some f
    | None => Webhook.first_structured b text
    end.
Proof.
  induction a as [|pat a IH]; [reflexivity|].
  cbn [app Webhook.first_structured].
  destruct (Re.search pat text) as [m|]; [|exact IH].
  destruct (Dyn.truthy_opt _); [reflexivity | exact IH].
Qed.

Lemma first_keyword_unknown (lines : list string) (f : string * Z * string) :
  Webhook.first_keyword lines = Some f ->
  fst (fst f) = "(unknown)" /\ snd (fst f) = 1%Z.
Proof.
  induction lines as [|ln lines IH]; cbn [Webhook.first_keyword];
    [discriminate|].
  destruct (_ || _); [intros [= <-]; now split | exact IH].
Qed.

(** What [first_finding] returns when the compiler pattern and the
    type-checker pattern give nothing: the traceback pattern names no
    file and no line. *)
Lemma first_finding_unknown (text : string) (f : string * Z * string) :
  Webhook.first_structured [Patterns.gcc_agent; Patterns.tsc] text = None ->
  Webhook.first_finding text = Some f ->
  fst (fst f) = "(unknown)" /\ snd (fst f) = 1%Z.
Proof.
  intros Hs. unfold Webhook.first_finding.
  change Webhook.FILELINE_PATS
    with ([Patterns.gcc_agent; Patterns.tsc] ++ [Patterns.traceback_agent]).
  rewrite first_structured_app, Hs.
  cbn [Webhook.first_structured].
  destruct (Re.search Patterns.traceback_agent text) as [m|];
    [|apply first_keyword_unknown].
  destruct (Dyn.truthy_opt _); [|apply first_keyword_unknown].
  intros [= <-]. now split.
Qed.

(** X11.  The endpoint on a request without text whose log has a finding,
    but none of the compiler pattern and none of the type-checker pattern:
    the finding is placed at [(unknown)], line 1, also when it comes from a
    traceback that names a file and a line, and the answer is a first line
    that starts with [(unknown):1] and the line of the entry [basic]. *)
Theorem endpoint_traceback_is_unlocated
        (p : Endpoint.Payload) (w : world) (f : string * Z * string) :
  Py.truthy (Py.lower (Py.strip (Dyn.or_str (Endpoint.text p) ""))) = false ->
  Webhook.first_structured [Patterns.gcc_agent; Patterns.tsc]
    (Dyn.or_str (Endpoint.log_tail p) "") = None ->
  Webhook.first_finding (Dyn.or_str (Endpoint.log_tail p) "") = Some f ->
  fst (fst f) = "(unknown)" /\ snd (fst f) = 1%Z
  /\ exists tip remark w',
      Endpoint.chaos p w = (Ok [("(unknown):1 — " ++ tip)%string; remark], w')
      /\ Table.item Webhook.QUIPS "basic" = [remark].
Proof.
  intros Htext Hs Hf.
  destruct (first_finding_unknown _ f Hs Hf) as [Hfile Hline].
  split; [exact Hfile|]. split; [exact Hline|].
  unfold Endpoint.chaos. cbv zeta. rewrite Htext, Hf.
  destruct f as [[file_ line_] msg_]. cbn [fst snd] in Hfile, Hline. subst.
  cbn [Endpoint.is_unknown]. rewrite String.eqb_refl.
  unfold Webhook.quip.
  destruct (choice_in string (Table.item Webhook.QUIPS "basic") w)
    as [q [w1 [Hq [Hin _]]]]; [discriminate|].
  rewrite (bind_run _ _ _ _ _ _ _ Hq).
  destruct Hin as [<-|[]].
  unfold Webhook.fix_line. cbv zeta.
  eexists; eexists; exists w1. split; reflexivity.
Qed.

(** A traceback that names [a.py], line 3. *)
Lemma endpoint_traceback_is_unlocated_witness :
  fst (fst ("(unknown)", 1%Z, "1/0")) = "(unknown)"
  /\ snd (fst ("(unknown)", 1%Z, "1/0")) = 1%Z
  /\ exists tip remark w',
      Endpoint.chaos
        {| Endpoint.context := None;
           Endpoint.log_tail := Some Fixture.traceback_only;
           Endpoint.text := None |} Fixture.start
      = (Ok [("(unknown):1 — " ++ tip)%string; remark], w')
      /\ Table.item Webhook.QUIPS "basic" = [remark].
Proof.
  apply (endpoint_traceback_is_unlocated
           {| Endpoint.context := None;
              Endpoint.log_tail := Some Fixture.traceback_only;
              Endpoint.text := None |} Fixture.start
           ("(unknown)", 1%Z, "1/0")).
  - vm_compute. reflexivity.
  - vm_compute. reflexivity.
  - vm_compute. reflexivity.
Defined.

(* ------------------------------------------------------------------ *)
(** * Further properties: the mask of the key *)
(* ------------------------------------------------------------------ *)

Lemma stars_length (k : nat) : String.length (stars k) = k.
Proof. induction k as [|k IH]; cbn [stars String.length]; congruence. Qed.

Lemma append_length (a b : string) :
  String.length (a ++ b) = String.length a + String.length b.
Proof.
  induction a as [|c a IH]; cbn [append String.length]; [reflexivity|].
  now rewrite IH.
Qed.

Lemma get_stars (k i : nat) (t : string) :
  i < k -> String.get i (stars k ++ t) = Some "*"%char.
Proof.
  revert i. induction k as [|k IH]; intros i H; [lia|].
  cbn [stars append]. destruct i as [|i]; [reflexivity|].
  cbn [String.get]. apply IH. lia.
Qed.

Lemma get_after (a b : string) (j : nat) :
  String.get (String.length a + j) (a ++ b) = String.get j b.
Proof.
  induction a as [|c a IH]; cbn [append String.length]; [reflexivity|].
  exact IH.
Qed.

Lemma get_drop (s : string) :
  forall k j, k <= String.length s ->
              String.get j (Py.drop k s) = String.get (k + j) s.
Proof.
  induction s as [|c s IH]; intros [|k] j H; cbn [Py.drop String.length] in *;
    try reflexivity; try lia.
  cbn [Nat.add String.get]. apply IH. lia.
Qed.

(** X12.  The mask of a key, for a count [n] that is not negative: every
    position before the last [n] holds a star; for [n] of 1 or more the
    mask is as long as the key and agrees with it on the last [n]
    positions, so nothing but the tail is shown; for [n = 0] the mask is
    one star for each character followed by the whole key. *)
Theorem mask_shows_only_tail (s : string) (n : Z) :
  (0 <= n)%Z ->
  (forall i, i < String.length s - Z.to_nat n ->
             String.get i (_mask_tail s n) = Some "*"%char)
  /\ ((1 <= n)%Z ->
      String.length (_mask_tail s n) = String.length s
      /\ forall i, String.length s - Z.to_nat n <= i ->
                   String.get i (_mask_tail s n) = String.get i s)
  /\ (n = 0%Z -> _mask_tail s n = (stars (String.length s) ++ s)%string).
Proof.
  intros Hn. unfold _mask_tail.
  destruct s as [|c s].
  { cbn [Py.truthy String.length]. split; [intros i H; cbn in H; lia|].
    split; [intros _; split; reflexivity | intros _; reflexivity]. }
  cbn [Py.truthy]. set (t := String c s).
  assert (Hk : Z.to_nat (Z.max 0 (Z.of_nat (String.length t) - n))
               = String.length t - Z.to_nat n) by lia.
  rewrite Hk. split; [intros i H; now apply get_stars|]. split.
  - intros H1. unfold tail_slice.
    replace (0 <? n)%Z with true by (symmetry; apply Z.ltb_lt; lia).
    split.
    + rewrite append_length, stars_length, drop_length. lia.
    + intros i Hi.
      replace i with (String.length (stars (String.length t - Z.to_nat n))
                      + (i - (String.length t - Z.to_nat n)))
        at 1 by (rewrite stars_length; lia).
      rewrite get_after, get_drop by lia. f_equal. lia.
  - intros ->. unfold tail_slice. cbn [Z.ltb Z.compare Z.opp Z.to_nat].
    rewrite Nat.sub_0_r. reflexivity.
Qed.

(** The default count, 6, on a key of ten characters. *)
Lemma mask_shows_only_tail_witness :
  (forall i, i < 10 - 6 -> String.get i (_mask_tail "sk-abcdefg" 6) = Some "*"%char)
  /\ ((1 <= 6)%Z ->
      String.length (_mask_tail "sk-abcdefg" 6) = 10
      /\ forall i, 10 - 6 <= i ->
                   String.get i (_mask_tail "sk-abcdefg" 6)
                   = String.get i "sk-abcdefg")
  /\ (6%Z = 0%Z -> _mask_tail "sk-abcdefg" 6 = (stars 10 ++ "sk-abcdefg")%string).
Proof.
  apply (mask_shows_only_tail "sk-abcdefg" 6). lia.
Defined.

(* ------------------------------------------------------------------ *)
(** * Further properties: the base addresses of the first service *)
(* ------------------------------------------------------------------ *)

Lemma existsb_eqb (x : string) (l : list string) :
  existsb (String.eqb x) l = true <-> In x l.
Proof.
  rewrite existsb_exists. split.
  - intros [y [Hy He]]. apply String.eqb_eq in He. now subst.
  - intros H. exists x. split; [exact H | apply String.eqb_refl].
Qed.

Lemma fromkeys_in (l : list string) :
  forall seen x, In x (fromkeys l seen) <-> In x l /\ ~ In x seen.
Proof.
  induction l as [|y l IH]; intros seen x; cbn [fromkeys In]; [tauto|].
  destruct (existsb (String.eqb y) seen) eqn:He.
  - apply existsb_eqb in He. rewrite IH. split.
    + intros [H1 H2]. tauto.
    + intros [[->|H1] H2]; [contradiction | tauto].
  - assert (Hy : ~ In y seen).
    { intros H. apply existsb_eqb in H. congruence. }
    cbn [In]. rewrite IH. cbn [In]. split.
    + intros [->|[H1 H2]]; [tauto|]. split; [tauto|]. intros H; apply H2; tauto.
    + intros [[->|H1] H2]; [now left|].
      destruct (string_dec y x) as [->|Hne]; [now left|]. right.
      split; [exact H1|]. intros [H|H]; [contradiction | contradiction].
Qed.

Lemma fromkeys_nodup (l : list string) :
  forall seen, NoDup (fromkeys l seen).
Proof.
  induction l as [|y l IH]; intros seen; cbn [fromkeys]; [constructor|].
  destruct (existsb (String.eqb y) seen); [apply IH|].
  constructor; [|apply IH].
  rewrite fromkeys_in. cbn [In]. tauto.
Qed.

Lemma rstrip_chars_app (chars t : string) :
  (forall c, In c (list_ascii_of_string t) -> in_chars c chars = true) ->
  forall s, rstrip_chars chars (s ++ t) = rstrip_chars chars s.
Proof.
  intros Ht.
  assert (H0 : rstrip_chars chars t = EmptyString).
  { induction t as [|c t IH]; [reflexivity|].
    cbn [rstrip_chars]. rewrite IH.
    - rewrite Ht; [reflexivity | now left].
    - intros d Hd. apply Ht. now right. }
  induction s as [|c s IH]; cbn [append]; [exact H0|].
  cbn [rstrip_chars]. now rewrite IH.
Qed.

(** X13.  The list of base addresses the first service is tried at, for
    any configured base: it has no duplicates, starts with the configured
    base, and holds exactly the configured base, its [rstrip("/v1")] and
    the two default addresses.  That second entry is not the base without
    the suffix [/v1]: the argument of [rstrip] is a set of characters, so
    for a base [h/v1] the stripping goes on into [h]. *)
Theorem asi_bases_distinct (base : string) :
  NoDup (_ASI_BASES base)
  /\ hd_error (_ASI_BASES base) = Some base
  /\ (forall b, In b (_ASI_BASES base)
                <-> In b [base; rstrip_chars "/v1" base;
                          "https://api.asi1.ai/v1"; "https://api.asi1.ai"])
  /\ (forall h, base = (h ++ "/v1")%string ->
                rstrip_chars "/v1" base = rstrip_chars "/v1" h).
Proof.
  unfold _ASI_BASES. split; [apply fromkeys_nodup|].
  split; [reflexivity|]. split.
  - intros b. rewrite fromkeys_in. cbn [In]. tauto.
  - intros h ->. apply rstrip_chars_app.
    intros c [<-|[<-|[<-|[]]]]; reflexivity.
Qed.
